(** * Hansard speech retrieval and reconciliation

    A shallow embedding of the retrieval-and-reconciliation code of
    [speechGather.py] (with the older copies kept in [test.py] and
    [clean.py]): the listing client's response handling, the truncation
    heuristic, the full-text fallback fetcher, the text normaliser, the
    date-range filter and the per-record export loop.

    Python values are modelled as follows.
    - A [str] is a list of Unicode code points; [len] is its number of
      code points, as Python counts it.
    - [None] or an absent dictionary key is [None] of an [option].
    - A raised exception is the [inl] of a sum; [try ... except Exception]
      is a match on that sum.
    - The network is a function from the requests made so far and the
      requested URL to an outcome; every GET is appended to the history,
      so that "no request was made" is a statement about the history.
    - Functions of the standard library and of third-party packages
      ([html.unescape], [urllib.parse.urljoin], [datetime.strptime], the
      HTML parser, the Unicode character tables) are parameters of the
      sections that use them.  [unescape] and [urljoin] are taken as total
      functions on the locators the listing API returns; module [Raising]
      has the export with the locators on which [urljoin] raises. *)

From Stdlib Require Import ZArith NArith List Bool Lia.
From Stdlib Require Import Strings.String Strings.Ascii Strings.Byte.
Import ListNotations.

Set Implicit Arguments.
Set Warnings "-register-all".

(* ===================================================================== *)
(** * Python strings *)
(* ===================================================================== *)

Module PyStr.

Definition codepoint := N.
Definition str := list codepoint.

(** A string literal of the source, given in ASCII. *)
Definition lit (s : string) : str :=
  List.map N_of_ascii (list_ascii_of_string s).

(** [len(s)] *)
Definition len (s : str) : Z := Z.of_nat (List.length s).

Definition str_eqb (a b : str) : bool :=
  if list_eq_dec N.eq_dec a b then true else false.

(** [s.startswith(prefix)] *)
Fixpoint startswith (s prefix : str) : bool :=
  match prefix, s with
  | [], _ => true
  | _ :: _, [] => false
  | p :: prefix', c :: s' => N.eqb p c && startswith s' prefix'
  end.

(** The string read backwards, [s[::-1]]. *)
Definition reversed (s : str) : str := rev_append s [].

(** [s.endswith(suffix)] *)
Definition endswith (s suffix : str) : bool :=
  startswith (reversed s) (reversed suffix).

(** [sub in s] *)
Fixpoint contains (sub s : str) : bool :=
  startswith s sub ||
  match s with
  | [] => false
  | _ :: s' => contains sub s'
  end.

(** [str.isspace] on one code point: the characters CPython treats as
    white space in [strip] and [split]. *)
Definition isspace (c : codepoint) : bool :=
  ((9 <=? c) && (c <=? 13) || (28 <=? c) && (c <=? 32) ||
   (c =? 133) || (c =? 160) || (c =? 5760) ||
   (8192 <=? c) && (c <=? 8202) ||
   (c =? 8232) || (c =? 8233) || (c =? 8239) || (c =? 8287) ||
   (c =? 12288))%N.

(** [s.lstrip()] *)
Fixpoint lstrip (s : str) : str :=
  match s with
  | [] => []
  | c :: s' => if isspace c then lstrip s' else s
  end.

(** [s.rstrip()] *)
Definition rstrip (s : str) : str := reversed (lstrip (reversed s)).

(** [s.strip()] *)
Definition strip (s : str) : str := rstrip (lstrip s).

(** [s.split()] with no argument: the maximal runs of characters that are
    not white space.  [cur] is the run being read, reversed. *)
Fixpoint split_run (cur : str) (s : str) : list str :=
  match s with
  | [] => match cur with [] => [] | _ :: _ => [reversed cur] end
  | c :: s' =>
      if isspace c then
        match cur with
        | [] => split_run [] s'
        | _ :: _ => reversed cur :: split_run [] s'
        end
      else split_run (c :: cur) s'
  end.

Definition split (s : str) : list str := split_run [] s.

(** [sep.join(words)] *)
Fixpoint join (sep : str) (words : list str) : str :=
  match words with
  | [] => []
  | [w] => w
  | w :: ws => w ++ sep ++ join sep ws
  end.

(** [s.split(sep)[0]] for a one-character separator: the part of [s]
    before the first [sep]. *)
Fixpoint before_first (sep : codepoint) (s : str) : str :=
  match s with
  | [] => []
  | c :: s' => if N.eqb c sep then [] else c :: before_first sep s'
  end.

(** The slice [s[:n]]. *)
Definition slice_to (n : Z) (s : str) : str := firstn (Z.to_nat n) s.

(** Truth value of a string: the empty string is false. *)
Definition truthy (s : str) : bool :=
  match s with [] => false | _ :: _ => true end.

End PyStr.

Import PyStr.

(* ===================================================================== *)
(** * Truncation heuristic *)
(* ===================================================================== *)

Definition ELLIPSIS : str := lit "...".
Definition ENTITY_MARKER : str := lit "&#".
Definition SENTINEL : str := lit "Unable to retrieve full speech.".

(** The condition of [export_speeches_to_csv] (and of
    [export_speeches_to_pdf]) that decides whether a body is truncated:
    [body.endswith('...') or '&#' in body or len(body) < 200]. *)
Definition is_truncated (body : str) : bool :=
  endswith body ELLIPSIS || contains ENTITY_MARKER body || (len body <? 200)%Z.

(* ===================================================================== *)
(** * Listing client: response handling *)
(* ===================================================================== *)

(** A parsed JSON value, as [response.json()] returns it.  Python's [None]
    is [JNull]; a [dict] is its list of items, with distinct keys. *)
Inductive json :=
| JNull
| JBool (b : bool)
| JNumber (z : Z)
| JString (s : str)
| JArray (items : list json)
| JObject (items : list (str * json)).

(** [d.get(key)] on the items of a dict; also decides [key in d]. *)
Fixpoint dict_get (key : str) (d : list (str * json)) : option json :=
  match d with
  | [] => None
  | (k, v) :: d' => if str_eqb k key then Some v else dict_get key d'
  end.

(** What one listing request came to, seen from [_make_call]. *)
Inductive api_reply :=
| ApiRequestFailed                 (* requests.get raised RequestException *)
| ApiHttpError (status : Z)        (* raise_for_status raised HTTPError *)
| ApiNotJson                       (* response.json() raised ValueError *)
| ApiJson (data : json).           (* the parsed body *)

(** [OpenAustraliaAPI._make_call]: the parsed JSON, or [None] after any
    exception and for a dict that carries an ['error'] key. *)
Definition _make_call (reply : api_reply) : json :=
  match reply with
  | ApiJson data =>
      match data with
      | JObject d =>
          match dict_get (lit "error") d with
          | Some _ => JNull
          | None => data
          end
      | _ => data
      end
  | _ => JNull
  end.

(** [OpenAustraliaAPI.get_hansard], on the value [_make_call] returned:
    [data['rows']] for a dict with that key, a list as it is, and [None]
    in every other case. *)
Definition get_hansard (data : json) : json :=
  match data with
  | JObject d =>
      match dict_get (lit "rows") d with
      | Some rows => rows
      | None => JNull
      end
  | JArray _ => data
  | _ => JNull
  end.

(** The handling as the specification words it: anything that is neither
    an object with [rows] nor an array yields an empty sequence. *)
Definition get_hansard_spec (data : json) : json :=
  match data with
  | JObject d =>
      match dict_get (lit "rows") d with
      | Some rows => rows
      | None => JArray []
      end
  | JArray _ => data
  | _ => JArray []
  end.

(* ===================================================================== *)
(** * Records of the listing and rows of the export *)
(* ===================================================================== *)

(** The [speaker] dict of an entry. *)
Record SpeakerInfo := { full_name : option str }.

(** One Hansard entry of the listing: the keys the export reads.  [None]
    is an absent key. *)
Record Entry := {
  gid : option str;
  hdate : option str;
  speaker : option SpeakerInfo;
  body : option str;
  listurl : option str
}.

(** One row appended to [speeches]. *)
Record Row := {
  Hansard_ID : option str;
  Date : option str;
  Speaker : str;
  URL : str;
  Speech : str
}.

(** [d.get(key, default)] for a key that may be absent. *)
Definition get_default {A : Type} (v : option A) (default : A) : A :=
  match v with
  | Some x => x
  | None => default
  end.

(** [entry.get('body', 'No content')] *)
Definition entry_body (entry : Entry) : str :=
  get_default (body entry) (lit "No content").

(** The detail URL of an entry when [if listurl:] holds: present and not
    the empty string. *)
Definition detail_url (entry : Entry) : option str :=
  match listurl entry with
  | Some u => if truthy u then Some u else None
  | None => None
  end.

(* ===================================================================== *)
(** * Date-range filter *)
(* ===================================================================== *)

Record datetime := { year : Z; month : Z; day : Z }.

(** [a <= b] on dates. *)
Definition datetime_leb (a b : datetime) : bool :=
  ((year a <? year b) ||
   (year a =? year b) &&
     ((month a <? month b) || (month a =? month b) && (day a <=? day b)))%Z.

(** [datetime.strptime(s, "%Y-%m-%d")]; [None] is the [ValueError] of a
    string that does not parse. *)
Class DateLib := { strptime : str -> option datetime }.

Definition DEFAULT_HDATE : str := lit "1900-01-01".

Section DateRange.
Context {dates : DateLib}.

(** The date an entry is compared by:
    [datetime.strptime(entry.get('hdate', '1900-01-01'), "%Y-%m-%d")]. *)
Definition entry_date (entry : Entry) : option datetime :=
  strptime (get_default (hdate entry) DEFAULT_HDATE).

(** The condition of the comprehension, for an entry whose date parses. *)
Definition in_range (d1 d2 : datetime) (entry : Entry) : bool :=
  match entry_date entry with
  | Some d => datetime_leb d1 d && datetime_leb d d2
  | None => false
  end.

(** The list comprehension of [get_hansard_by_date_range]; [None] when a
    [strptime] inside it raises. *)
Fixpoint filter_by_date (start_date_obj end_date_obj : datetime)
    (hansard_data : list Entry) : option (list Entry) :=
  match hansard_data with
  | [] => Some []
  | entry :: rest =>
      match entry_date entry with
      | None => None
      | Some d =>
          match filter_by_date start_date_obj end_date_obj rest with
          | None => None
          | Some kept =>
              if datetime_leb start_date_obj d && datetime_leb d end_date_obj
              then Some (entry :: kept)
              else Some kept
          end
      end
  end.

(** [OpenAustraliaAPI.get_hansard_by_date_range], on the value
    [hansard_data] that the call of [self.get_hansard] returned.  The whole
    body is inside [try]; [except Exception] returns the empty list. *)
Definition get_hansard_by_date_range (start_date end_date : str)
    (hansard_data : option (list Entry)) : list Entry :=
  match strptime start_date with
  | None => []
  | Some start_date_obj =>
      match strptime end_date with
      | None => []
      | Some end_date_obj =>
          match hansard_data with
          | None => []
          | Some [] => []
          | Some data =>
              match filter_by_date start_date_obj end_date_obj data with
              | None => []
              | Some filtered_speeches => filtered_speeches
              end
          end
      end
  end.

(** The earliest date a [datetime] can hold, [datetime.min]. *)
Definition EARLIEST : datetime := {| year := 1; month := 1; day := 1 |}.

(** The filter as the specification words it: a record whose date does
    not parse is compared as the earliest possible date, and no record
    makes the filter fail. *)
Definition filterByDateRange_spec (records : list Entry) (d1 d2 : datetime)
    : list Entry :=
  filter (fun entry =>
            let d := get_default (entry_date entry) EARLIEST in
            datetime_leb d1 d && datetime_leb d d2)
         records.

End DateRange.

(* ===================================================================== *)
(** * Network and HTML parser *)
(* ===================================================================== *)

(** The exceptions the fetcher can meet. *)
Inductive exn :=
| RequestException            (* requests.get: no connection, time-out *)
| HTTPError (status : Z)      (* Response.raise_for_status *)
| ParserError                 (* the HTML parser *)
| ValueError.                 (* urllib.parse.urljoin *)

Record Response := { status_code : Z; content : list byte }.

(** The requests made so far, oldest first. *)
Definition history := list str.

(** [requests]: what a GET of a URL comes to after the requests already
    made, and on which responses [raise_for_status] raises. *)
Class Network := {
  http_get : history -> str -> exn + Response;
  raise_for_status : Response -> option exn
}.

(** [html.unescape] and [urllib.parse.urljoin]. *)
Class UrlLib := {
  unescape : str -> str;
  urljoin : str -> str -> str
}.

(** The arguments of one [soup.find(name, attrs)]. *)
Record selector := { sel_name : str; sel_attr : str; sel_value : str }.

(** [bs4]: parsing, [find] and [get_text(separator)].  A [Tag] is always
    true as a condition, so [a or b] on results of [find] is the first one
    that is not [None]. *)
Class HtmlLib := {
  soup : Type;
  tag : Type;
  BeautifulSoup : list byte -> exn + soup;
  find : soup -> selector -> option tag;
  soup_get_text : soup -> str -> str;
  tag_get_text : tag -> str -> str
}.

(** A computation that reads and extends the request history and may
    raise. *)
Definition IO (A : Type) : Type := history -> (exn + A) * history.

Definition ret {A : Type} (x : A) : IO A := fun h => (inr x, h).

Definition raise {A : Type} (e : exn) : IO A := fun h => (inl e, h).

Definition bind {A B : Type} (c : IO A) (k : A -> IO B) : IO B :=
  fun h =>
    match c h with
    | (inl e, h') => (inl e, h')
    | (inr x, h') => k x h'
    end.

Declare Scope io_scope.
Delimit Scope io_scope with io.
Notation "x <- c ;; k" := (bind c (fun x => k))
  (at level 61, c at next level, right associativity) : io_scope.
Notation "c ;; k" := (bind c (fun _ => k))
  (at level 61, right associativity) : io_scope.

(** [try: c  except Exception: return default] *)
Definition try_except {A : Type} (c : IO A) (default : A)
    : history -> A * history :=
  fun h =>
    match c h with
    | (inl _, h') => (default, h')
    | (inr x, h') => (x, h')
    end.

(** [a or b] on two results of [find]. *)
Definition or_else {A : Type} (a b : option A) : option A :=
  match a with
  | Some _ => a
  | None => b
  end.

Definition BASE_URL : str := lit "https://www.openaustralia.org.au".
Definition NO_URL : str := lit "No URL available".
Definition NEWLINE : str := lit (String (ascii_of_nat 10) EmptyString).
Definition SPACE : str := lit " ".
Definition HASH : codepoint := 35%N.

Definition div_class (value : string) : selector :=
  {| sel_name := lit "div"; sel_attr := lit "class"; sel_value := lit value |}.
Definition div_id (value : string) : selector :=
  {| sel_name := lit "div"; sel_attr := lit "id"; sel_value := lit value |}.

(** The absolute URL of a locator that was already unescaped. *)
Definition absolute_url {urls : UrlLib} (unescaped_url : str) : str :=
  if negb (startswith unescaped_url (lit "http"))
  then urljoin BASE_URL unescaped_url
  else unescaped_url.

(** The URL that [fetch_full_speech] requests for a locator: unescaped,
    without its fragment, absolute. *)
Definition requested_url {urls : UrlLib} (url : str) : str :=
  absolute_url (before_first HASH (unescape url)).

(* ===================================================================== *)
(** * Full-text fallback fetcher and export loop ([speechGather.py]) *)
(* ===================================================================== *)

Section Pipeline.
Context {net : Network} {urls : UrlLib} {html : HtmlLib}.

(** [requests.get(full_url, headers=headers)]: the request is recorded
    whatever its outcome.  The headers are a constant of the source. *)
Definition requests_get (url : str) : IO Response :=
  fun h => (http_get h url, h ++ [url]).

(** [response.raise_for_status()] *)
Definition check_status (response : Response) : IO unit :=
  match raise_for_status response with
  | Some e => raise e
  | None => ret tt
  end.

(** [BeautifulSoup(response.content, 'lxml')] *)
Definition parse_html (data : list byte) : IO soup :=
  fun h => (BeautifulSoup data, h).

(** The body of the [try] of [fetch_full_speech]. *)
Definition fetch_full_speech_try (url : str) : IO str :=
  let unescaped_url := before_first HASH (unescape url) in
  let full_url := absolute_url unescaped_url in
  (response <- requests_get full_url ;;
   check_status response ;;
   page <- parse_html (content response) ;;
   let speech_div :=
     or_else (find page (div_class "speech"))
       (or_else (find page (div_class "speech_text"))
          (or_else (find page (div_id "speech"))
             (find page (div_class "debate-body")))) in
   let full_speech :=
     match speech_div with
     | Some d => strip (tag_get_text d NEWLINE)
     | None => strip (soup_get_text page SPACE)
     end in
   let cleaned_speech := join SPACE (split full_speech) in
   ret cleaned_speech)%io.

(** [fetch_full_speech(url)]: [except Exception] returns the sentinel. *)
Definition fetch_full_speech (url : str) : history -> str * history :=
  try_except (fetch_full_speech_try url) SENTINEL.

(** One iteration of the loop of [export_speeches_to_csv]: the row that
    is appended for [entry]. *)
Definition export_row (entry : Entry) (h : history) : Row * history :=
  let hansard_id := gid entry in
  let date := hdate entry in
  let speaker :=
    get_default
      (full_name (get_default (speaker entry) {| full_name := None |}))
      (lit "Unknown") in
  let body := entry_body entry in
  let full_url :=
    match detail_url entry with
    | Some u => absolute_url (unescape u)
    | None => NO_URL
    end in
  let (full_speech, h') :=
    if is_truncated body then
      match detail_url entry with
      | Some u => fetch_full_speech u h
      | None => (SENTINEL, h)
      end
    else (body, h) in
  ({| Hansard_ID := hansard_id; Date := date; Speaker := speaker;
      URL := full_url; Speech := full_speech |}, h').

(** [speeches = []; for entry in hansard_entries: ...; speeches.append(...)] *)
Definition speeches_loop (hansard_entries : list Entry) (h : history)
    : list Row * history :=
  fold_left
    (fun (st : list Row * history) entry =>
       let (row, h') := export_row entry (snd st) in
       (fst st ++ [row], h'))
    hansard_entries ([], h).

(** [export_speeches_to_csv]: the rows handed to the spreadsheet writer,
    or [None] when nothing is written: the API key is missing, or the
    client returned no entry.  [hansard_data] is what [get_hansard]
    returned to [get_hansard_by_date_range]. *)
Definition export_speeches_to_csv {dates : DateLib} (api_key : option str)
    (hansard_data : option (list Entry)) (h : history)
    : option (list Row) * history :=
  match api_key with
  | None => (None, h)
  | Some key =>
      if truthy key then
        let hansard_entries :=
          get_hansard_by_date_range (lit "2023-12-05") (lit "2024-12-05")
            hansard_data in
        match hansard_entries with
        | [] => (None, h)
        | _ :: _ =>
            let (speeches, h') := speeches_loop hansard_entries h in
            (Some speeches, h')
        end
      else (None, h)
  end.

(** The rows that reached the spreadsheet writer. *)
Definition rows_written (result : option (list Row) * history) : list Row :=
  match fst result with
  | Some speeches => speeches
  | None => []
  end.

End Pipeline.

(* ===================================================================== *)
(** * The fetcher of [test.py] *)
(* ===================================================================== *)

Module TestPy.
Section Fetcher.
Context {net : Network} {urls : UrlLib} {html : HtmlLib}.

Definition possible_selectors : list selector :=
  [ div_class "speech"; div_class "speech_text"; div_id "speech";
    div_class "debate-body"; div_class "speech-content";
    div_class "full-speech" ].

(** [for selector in possible_selectors: ... if speech_div: break] *)
Fixpoint first_match (page : soup) (selectors : list selector)
    : option tag :=
  match selectors with
  | [] => None
  | sel :: rest =>
      match find page sel with
      | Some d => Some d
      | None => first_match page rest
      end
  end.

Definition MAX_FALLBACK_CHARS : Z := 100000.

(** The body of the [try] of [test.py]'s [fetch_full_speech].  Its request
    has no headers: a site that tells this client from the one of
    [speechGather.py] is another [Network]. *)
Definition fetch_full_speech_try (url : str) : IO str :=
  let unescaped_url := before_first HASH (unescape url) in
  let full_url := absolute_url unescaped_url in
  (response <- requests_get full_url ;;
   check_status response ;;
   page <- parse_html (content response) ;;
   match first_match page possible_selectors with
   | Some d => ret (strip (tag_get_text d NEWLINE))
   | None =>
       let all_text := strip (soup_get_text page NEWLINE) in
       ret (slice_to MAX_FALLBACK_CHARS all_text ++ ELLIPSIS)
   end)%io.

Definition fetch_full_speech (url : str) : history -> str * history :=
  try_except (fetch_full_speech_try url) SENTINEL.

End Fetcher.
End TestPy.

(* ===================================================================== *)
(** * Text normaliser *)
(* ===================================================================== *)

(** The two tables of the Unicode character database that NFKD reads: the
    full compatibility decomposition of a code point (the code point
    itself when it has none) and its canonical combining class,
    [unicodedata.combining]. *)
Class UnicodeData := {
  decomposition : codepoint -> str;
  combining : codepoint -> N
}.

(** What the character database says of the ASCII range. *)
Class AsciiStable (ucd : UnicodeData) : Prop := {
  decomposition_ascii : forall c, (c < 128)%N -> decomposition c = [c];
  combining_ascii : forall c, (c < 128)%N -> combining c = 0%N
}.

Section Normalizer.
Context {ucd : UnicodeData}.

(** Canonical ordering: a character moves right past the characters of
    smaller, non-zero combining class that follow it. *)
Fixpoint reorder_insert (c : codepoint) (s : str) : str :=
  match s with
  | [] => [c]
  | x :: s' =>
      if ((0 <? combining x) && (combining x <? combining c))%N
      then x :: reorder_insert c s'
      else c :: s
  end.

Fixpoint canonical_order (s : str) : str :=
  match s with
  | [] => []
  | c :: s' => reorder_insert c (canonical_order s')
  end.

(** [unicodedata.normalize('NFKD', text)] *)
Definition NFKD (text : str) : str :=
  canonical_order (flat_map decomposition text).

(** [text.encode('ascii', 'ignore')]: the code points below 128, as
    bytes; the others are dropped. *)
Definition encode_ascii_ignore (text : str) : list byte :=
  flat_map
    (fun c =>
       if (c <? 128)%N then
         match Byte.of_N c with
         | Some b => [b]
         | None => []
         end
       else [])
    text.

(** [data.decode('ascii')]; [None] is [UnicodeDecodeError]. *)
Fixpoint decode_ascii (data : list byte) : option str :=
  match data with
  | [] => Some []
  | b :: rest =>
      if (Byte.to_N b <? 128)%N then
        match decode_ascii rest with
        | Some s => Some (Byte.to_N b :: s)
        | None => None
        end
      else None
  end.

(** [sanitize_text(text)], in [speechGather.py] and, after [str(text)],
    in [clean.py]:
    [unicodedata.normalize('NFKD', text).encode('ascii', 'ignore').decode('ascii')]. *)
Definition sanitize_text (text : str) : option str :=
  decode_ascii (encode_ascii_ignore (NFKD text)).

(** A code point of the ASCII range. *)
Definition below_128 (c : codepoint) : bool := (c <? 128)%N.

(** All characters of a string are ASCII. *)
Definition is_ascii (s : str) : Prop := Forall (fun c => (c < 128)%N) s.

End Normalizer.

(* ===================================================================== *)
(** * Concrete libraries and inputs for the examples *)
(* ===================================================================== *)

Module Examples.

(** ** Dates written with ASCII digits *)

Definition digit_value (c : codepoint) : option Z :=
  if ((48 <=? c) && (c <=? 57))%N then Some (Z.of_N c - 48)%Z else None.

Fixpoint number_value (acc : Z) (s : str) : option Z :=
  match s with
  | [] => Some acc
  | c :: s' =>
      match digit_value c with
      | Some d => number_value (10 * acc + d)%Z s'
      | None => None
      end
  end.

(** [s.split(sep)] for a one-character separator. *)
Fixpoint split_on (sep : codepoint) (cur : str) (s : str) : list str :=
  match s with
  | [] => [reversed cur]
  | c :: s' =>
      if N.eqb c sep then reversed cur :: split_on sep [] s'
      else split_on sep (c :: cur) s'
  end.

Definition is_leap (y : Z) : bool :=
  ((y mod 4 =? 0) && (negb (y mod 100 =? 0) || (y mod 400 =? 0)))%Z.

Definition days_in_month (y m : Z) : Z :=
  (if m =? 2 then (if is_leap y then 29 else 28)
   else if (m =? 4) || (m =? 6) || (m =? 9) || (m =? 11) then 30
   else 31)%Z.

(** [strptime(s, "%Y-%m-%d")] on dates written with ASCII digits: four
    digits, one or two, one or two, and a day that exists. *)
Definition strptime_ymd (s : str) : option datetime :=
  match split_on 45%N [] s with
  | [ys; ms; ds] =>
      match number_value 0 ys, number_value 0 ms, number_value 0 ds with
      | Some y, Some m, Some d =>
          if ((len ys =? 4) && (1 <=? len ms) && (len ms <=? 2) &&
              (1 <=? len ds) && (len ds <=? 2) &&
              (1 <=? y) && (1 <=? m) && (m <=? 12) &&
              (1 <=? d) && (d <=? days_in_month y m))%Z
          then Some {| year := y; month := m; day := d |}
          else None
      | _, _, _ => None
      end
  | _ => None
  end.

Definition ascii_dates : DateLib := {| strptime := strptime_ymd |}.

(** ** Locators that are absolute paths without character references *)

Definition path_urls : UrlLib :=
  {| unescape := fun url => url;
     urljoin := fun base url => base ++ url |}.

(** ** Pages without markup: the document is one piece of text *)

Definition text_pages : HtmlLib :=
  {| soup := str;
     tag := Empty_set;
     BeautifulSoup := fun data => inr (List.map Byte.to_N data);
     find := fun _ _ => None;
     soup_get_text := fun page _ => page;
     tag_get_text := fun (d : Empty_set) _ => match d with end |}.

(** ** A site with three pages *)

Definition budget_url : str :=
  lit "https://www.openaustralia.org.au/debates/?id=2024-05-14.3.1".
Definition gone_url : str :=
  lit "https://www.openaustralia.org.au/debates/?id=gone".
Definition long_url : str :=
  lit "https://www.openaustralia.org.au/debates/?id=long".

Definition long_page : list byte := repeat "a"%byte (N.to_nat 200000).

Definition site (h : history) (url : str) : exn + Response :=
  if str_eqb url budget_url then
    inr {| status_code := 200;
           content := list_byte_of_string "Full remarks on the budget bill." |}
  else if str_eqb url gone_url then
    inr {| status_code := 404;
           content := list_byte_of_string "Not found" |}
  else if str_eqb url long_url then
    inr {| status_code := 200; content := long_page |}
  else inl RequestException.

(** [raise_for_status] of [requests]: client and server error codes. *)
Definition status_error (r : Response) : option exn :=
  if ((400 <=? status_code r) && (status_code r <? 600))%Z
  then Some (HTTPError (status_code r))
  else None.

Definition web : Network :=
  {| http_get := site; raise_for_status := status_error |}.

(** ** An excerpt of the character database *)

Definition ucd_excerpt : UnicodeData :=
  {| decomposition := fun c =>
       (if c =? 233 then [101; 769]            (* e with acute *)
        else if c =? 64257 then [102; 105]     (* ligature fi *)
        else if c =? 7785 then [115; 803; 775] (* s, dot below, dot above *)
        else if c =? 160 then [32]             (* no-break space *)
        else [c])%N;
     combining := fun c =>
       (if c =? 769 then 230
        else if c =? 775 then 230
        else if c =? 803 then 220
        else 0)%N |}.

(** ** Bodies and entries *)

(** Two hundred spaces. *)
Definition blank_body : str := repeat 32%N 200.

(** Five hundred letters, no marker. *)
Definition long_body : str := repeat 120%N 500.

Definition ellipsis_body : str := lit "Thank you Mr Speaker...".

Definition entity_body : str := long_body ++ lit "&#8212;" ++ long_body.

Definition entry_of (date : string) (text : str) (url : option str) : Entry :=
  {| gid := Some (lit "uk.org.publicwhip/lords/2024-05-14.3.1");
     hdate := Some (lit date);
     speaker := Some {| full_name := Some (lit "Penny Wong") |};
     body := Some text;
     listurl := url |}.

(** Truncated, with a detail page that can be fetched. *)
Definition truncated_entry : Entry :=
  entry_of "2024-05-14" ellipsis_body
    (Some (lit "/debates/?id=2024-05-14.3.1#g3.2")).

(** Complete, with a detail page. *)
Definition complete_entry : Entry :=
  entry_of "2024-05-15" long_body
    (Some (lit "/debates/?id=2024-05-14.3.1")).

(** Truncated, without a detail page. *)
Definition orphan_entry : Entry := entry_of "2024-05-16" ellipsis_body None.

(** Truncated, with a detail page that answers 404. *)
Definition gone_entry : Entry :=
  entry_of "2024-05-17" ellipsis_body (Some (lit "/debates/?id=gone")).

(** A date that does not parse. *)
Definition undated_entry : Entry :=
  entry_of "14 May 2024" long_body None.

(** No [hdate] key at all. *)
Definition dateless_entry : Entry :=
  {| gid := None; hdate := None; speaker := None; body := None;
     listurl := None |}.

Definition range_start : datetime := {| year := 2023; month := 12; day := 5 |}.
Definition range_end : datetime := {| year := 2024; month := 12; day := 5 |}.

(** A listing reply that is an object without [rows] and without
    [error]. *)
Definition no_rows_reply : json :=
  JObject [(lit "info", JString (lit "no results"))].

Definition rows_reply : json :=
  JObject [(lit "info", JNull);
           (lit "rows", JArray [JString (lit "entry")])].

End Examples.

(* ===================================================================== *)
(** * Listing client: construction, requests and endpoints *)
(* ===================================================================== *)

(** The value of a keyword argument of an endpoint. *)
Inductive arg :=
| ArgNone
| ArgStr (s : str)
| ArgInt (z : Z)
| ArgBool (b : bool).

(** The truth value of an argument in [if not type:], [if person_id:]. *)
Definition arg_truthy (a : arg) : bool :=
  match a with
  | ArgNone => false
  | ArgStr s => truthy s
  | ArgInt z => negb (z =? 0)%Z
  | ArgBool b => b
  end.

(** [a == s] for a string [s]. *)
Definition arg_is (a : arg) (s : str) : bool :=
  match a with
  | ArgStr s' => str_eqb s' s
  | _ => false
  end.

(** The client object: the fields [__init__] sets. *)
Record OpenAustraliaAPI := { api_key : str; api_url : str }.

(** [OpenAustraliaAPI.__init__]: the key given, or else the one of the
    environment; [None] is the [ValueError] raised when neither is a
    non-empty string. *)
Definition OpenAustraliaAPI_init (key : option str) (env_key : option str)
    (url : str) : option OpenAustraliaAPI :=
  let key :=
    match key with
    | Some k => if truthy k then Some k else env_key
    | None => env_key
    end in
  match key with
  | Some k =>
      if truthy k then Some {| api_key := k; api_url := url |} else None
  | None => None
  end.

(** One GET of the listing API: the endpoint and the query parameters. *)
Record api_request := { endpoint : str; params : list (str * arg) }.

(** The listing requests made so far, oldest first. *)
Definition api_log := list api_request.

(** The listing API: what a request comes to after the requests already
    made. *)
Class ApiServer := { api_exchange : api_log -> api_request -> api_reply }.

(** [d[k] = v] on the items of a dict. *)
Fixpoint dict_set (k : str) (v : arg) (d : list (str * arg))
    : list (str * arg) :=
  match d with
  | [] => [(k, v)]
  | (k', v') :: d' =>
      if str_eqb k' k then (k, v) :: d' else (k', v') :: dict_set k v d'
  end.

(** [d.update(kwargs)] *)
Definition dict_update (d kwargs : list (str * arg)) : list (str * arg) :=
  fold_left (fun acc kv => dict_set (fst kv) (snd kv) acc) kwargs d.

(** [d.get(k)] on query parameters. *)
Fixpoint params_get (k : str) (d : list (str * arg)) : option arg :=
  match d with
  | [] => None
  | (k', v) :: d' => if str_eqb k' k then Some v else params_get k d'
  end.

(** The truth value of a string that may be [None]. *)
Definition opt_truthy (s : option str) : bool :=
  match s with
  | Some s => truthy s
  | None => false
  end.

(** One keyword argument of a call, [name=value]. *)
Definition kw (name : string) (value : arg) : string * arg := (name, value).

Section Endpoints.
Context {server : ApiServer}.

(** [self._make_call(function, **kwargs)] with its request: the
    parameters start from the key and the output format and are updated
    with the keyword arguments. *)
Definition api_call (self : OpenAustraliaAPI) (function : string)
    (kwargs : list (string * arg)) (log : api_log) : json * api_log :=
  let api_endpoint := api_url self ++ lit "/" ++ lit function in
  let params :=
    dict_update
      [(lit "key", ArgStr (api_key self)); (lit "output", ArgStr (lit "js"))]
      (List.map (fun kv => (lit (fst kv), snd kv)) kwargs) in
  let request := {| endpoint := api_endpoint; params := params |} in
  (_make_call (api_exchange log request), log ++ [request]).

(** [data if isinstance(data, list) else None] *)
Definition list_or_none (data : json) : json :=
  match data with
  | JArray _ => data
  | _ => JNull
  end.

(** [data if isinstance(data, dict) else None] *)
Definition dict_or_none (data : json) : json :=
  match data with
  | JObject _ => data
  | _ => JNull
  end.

Definition get_senators (self : OpenAustraliaAPI)
    (date party state search page num : arg) (log : api_log)
    : json * api_log :=
  let (data, log') :=
    api_call self "getSenators"
      [kw "date" date; kw "party" party; kw "state" state;
       kw "search" search; kw "page" page; kw "num" num] log in
  (list_or_none data, log').

(** [get_senator]: a [person_id] that is given replaces [id]. *)
Definition get_senator (self : OpenAustraliaAPI) (id person_id : arg)
    (log : api_log) : json * api_log :=
  let id := if arg_truthy person_id then person_id else id in
  let (data, log') := api_call self "getSenator" [kw "id" id] log in
  (dict_or_none data, log').

Definition get_representatives (self : OpenAustraliaAPI)
    (postcode date party search page num : arg) (log : api_log)
    : json * api_log :=
  let (data, log') :=
    api_call self "getRepresentatives"
      [kw "postcode" postcode; kw "date" date; kw "party" party;
       kw "search" search; kw "page" page; kw "num" num] log in
  (list_or_none data, log').

(** [get_representative]: [id] and [division] together are refused
    before any request. *)
Definition get_representative (self : OpenAustraliaAPI)
    (id division always_return : arg) (log : api_log) : json * api_log :=
  if arg_truthy id && arg_truthy division then (JNull, log)
  else
    let (data, log') :=
      api_call self "getRepresentative"
        [kw "id" id; kw "division" division;
         kw "always_return" always_return] log in
    (dict_or_none data, log').

(** [get_debates]: [type] is required and is one of the two chambers. *)
Definition get_debates (self : OpenAustraliaAPI)
    (type date search person_id gid year order page num : arg)
    (log : api_log) : json * api_log :=
  if negb (arg_truthy type) then (JNull, log)
  else if negb (arg_is type (lit "representatives")
                || arg_is type (lit "senate")) then (JNull, log)
  else
    let (data, log') :=
      api_call self "getDebates"
        [kw "type" type; kw "date" date; kw "search" search;
         kw "person_id" person_id; kw "gid" gid; kw "year" year;
         kw "order" order; kw "page" page; kw "num" num] log in
    (list_or_none data, log').

(** The answer of [get_comments] on the value [_make_call] returned. *)
Definition comments_of (data : json) : json :=
  match data with
  | JObject d =>
      match dict_get (lit "comments") d with
      | Some comments => comments
      | None => JNull
      end
  | JArray _ => data
  | _ => JNull
  end.

Definition get_comments (self : OpenAustraliaAPI)
    (date search user_id pid page num : arg) (log : api_log)
    : json * api_log :=
  let (data, log') :=
    api_call self "getComments"
      [kw "date" date; kw "search" search; kw "user_id" user_id;
       kw "pid" pid; kw "page" page; kw "num" num] log in
  (comments_of data, log').

Definition get_divisions (self : OpenAustraliaAPI)
    (postcode date search page num : arg) (log : api_log)
    : json * api_log :=
  let (data, log') :=
    api_call self "getDivisions"
      [kw "postcode" postcode; kw "date" date; kw "search" search;
       kw "page" page; kw "num" num] log in
  (list_or_none data, log').

(** [get_hansard] with its request. *)
Definition get_hansard_request (self : OpenAustraliaAPI)
    (search person order page num : arg) (log : api_log)
    : json * api_log :=
  let (data, log') :=
    api_call self "getHansard"
      [kw "search" search; kw "person" person; kw "order" order;
       kw "page" page; kw "num" num] log in
  (get_hansard data, log').

End Endpoints.

(** A request carries the key of the client and the output format. *)
Definition carries_credentials (self : OpenAustraliaAPI)
    (request : api_request) : Prop :=
  params_get (lit "key") (params request) = Some (ArgStr (api_key self)) /\
  params_get (lit "output") (params request) = Some (ArgStr (lit "js")).

(** An exchange that gives the caller nothing: it failed, or the reply is
    an object that carries an ['error'] key. *)
Definition reply_failed (reply : api_reply) : bool :=
  match reply with
  | ApiJson (JObject d) =>
      match dict_get (lit "error") d with
      | Some _ => true
      | None => false
      end
  | ApiJson _ => false
  | _ => true
  end.

(* ===================================================================== *)
(** * Words and white space *)
(* ===================================================================== *)

(** A word: not empty, and without white space. *)
Definition is_word (w : str) : Prop :=
  w <> [] /\ Forall (fun c => isspace c = false) w.

(** [' '.join(text.split())], the last step of [fetch_full_speech]. *)
Definition collapse (text : str) : str := join SPACE (split text).

(* ===================================================================== *)
(** * Requests of the export loop *)
(* ===================================================================== *)


(* ===================================================================== *)
(** * Export to PDF ([speechGather.py]) *)
(* ===================================================================== *)

(** The three lines written for one entry. *)
Record PdfBlock := { speaker_line : str; date_line : str; speech_line : str }.

(** What an export came to. *)
Inductive export_result (A : Type) :=
| NothingWritten               (* no client, or no entry *)
| Raised                       (* an exception left the function *)
| Written (items : list A).    (* the items handed to the PDF writer *)

Arguments NothingWritten {A}.
Arguments Raised {A}.
Arguments Written {A} items.

(** The items an export wrote, none when it wrote nothing. *)
Definition items_written {A : Type} (result : export_result A) : list A :=
  match result with
  | Written items => items
  | _ => []
  end.

Section PdfExport.
Context {net : Network} {urls : UrlLib} {html : HtmlLib} {ucd : UnicodeData}.

(** One iteration of the loop of [export_speeches_to_pdf]; [None] when
    [sanitize_text] raises. *)
Definition pdf_block (entry : Entry) (h : history)
    : option PdfBlock * history :=
  let date := get_default (hdate entry) (lit "Unknown Date") in
  let speaker :=
    get_default
      (full_name (get_default (speaker entry) {| full_name := None |}))
      (lit "Unknown Speaker") in
  let body := entry_body entry in
  let (body, h') :=
    if is_truncated body then
      match detail_url entry with
      | Some u => fetch_full_speech u h
      | None => (SENTINEL, h)
      end
    else (body, h) in
  match sanitize_text speaker with
  | None => (None, h')
  | Some speaker =>
      match sanitize_text body with
      | None => (None, h')
      | Some body =>
          (Some {| speaker_line := lit "Speaker: " ++ speaker;
                   date_line := lit "Date: " ++ date;
                   speech_line := lit "Speech: " ++ body |}, h')
      end
  end.

(** [for entry in hansard_entries: ...], writing to [pdf]. *)
Fixpoint pdf_loop (hansard_entries : list Entry) (pdf : list PdfBlock)
    (h : history) : option (list PdfBlock) * history :=
  match hansard_entries with
  | [] => (Some pdf, h)
  | entry :: rest =>
      match pdf_block entry h with
      | (Some block, h') => pdf_loop rest (pdf ++ [block]) h'
      | (None, h') => (None, h')
      end
  end.

(** [export_speeches_to_pdf], on the key of the client and the value
    [get_hansard] returned. *)
Definition export_speeches_to_pdf (key : option str)
    (hansard_entries : option (list Entry)) (h : history)
    : export_result PdfBlock * history :=
  match key with
  | None => (NothingWritten, h)
  | Some k =>
      if truthy k then
        match hansard_entries with
        | None => (NothingWritten, h)
        | Some [] => (NothingWritten, h)
        | Some entries =>
            match pdf_loop entries [] h with
            | (Some pdf, h') => (Written pdf, h')
            | (None, h') => (Raised, h')
            end
        end
      else (NothingWritten, h)
  end.


End PdfExport.

(* ===================================================================== *)
(** * Spreadsheet to PDF ([clean.py]) *)
(* ===================================================================== *)

(** One page of the document: its date line and its text. *)
Record Page := { page_date : str; page_speech : str }.

Section ExcelToPdf.
Context {ucd : UnicodeData}.

(** The cells of the sheet and Python's [str] on them. *)
Variable cell : Type.
Variable py_str : cell -> str.

(** A data frame: its column labels and its rows, each row the cells
    under the labels. *)
Record DataFrame := {
  df_columns : list str;
  df_rows : list (list (str * cell))
}.

(** [row.get(key, default)], then [str] as [sanitize_text] applies it. *)
Fixpoint row_text (key : str) (default : str) (row : list (str * cell))
    : str :=
  match row with
  | [] => default
  | (k, v) :: row' =>
      if str_eqb k key then py_str v else row_text key default row'
  end.

(** [col in df.columns] *)
Definition has_column (df : DataFrame) (col : str) : bool :=
  existsb (str_eqb col) (df_columns df).

Definition required_columns : list str :=
  [lit "Date"; lit "Speaker"; lit "Speech"].

(** The loop over [df.iterrows()]: a row whose text is blank after
    [sanitize_text] is skipped; [None] when [sanitize_text] raises. *)
Fixpoint pages_of (rows : list (list (str * cell))) : option (list Page) :=
  match rows with
  | [] => Some []
  | row :: rest =>
      match sanitize_text (row_text (lit "Date") (lit "Unknown Date") row) with
      | None => None
      | Some date =>
          match sanitize_text (row_text (lit "Speech") [] row) with
          | None => None
          | Some speech =>
              if truthy (strip speech) then
                match pages_of rest with
                | Some pages =>
                    Some ({| page_date := lit "Date: " ++ date;
                             page_speech := speech |} :: pages)
                | None => None
                end
              else pages_of rest
          end
      end
  end.

(** [export_speeches_from_excel_to_pdf], on the data frame that
    [pd.read_excel] returned, [None] when it raised. *)
Definition export_speeches_from_excel_to_pdf (df : option DataFrame)
    : export_result Page :=
  match df with
  | None => NothingWritten
  | Some df =>
      if forallb (has_column df) required_columns then
        match pages_of (df_rows df) with
        | Some pages => Written pages
        | None => Raised
        end
      else NothingWritten
  end.

End ExcelToPdf.

(* ===================================================================== *)
(** * A listing API and a sheet for the examples *)
(* ===================================================================== *)

Module ClientExamples.

(** An API that knows one senator and reports an error for the rest. *)
Definition senator_reply : json :=
  JObject [(lit "full_name", JString (lit "Penny Wong"))].

Definition error_reply : json :=
  JObject [(lit "error", JString (lit "Unknown person ID"));
           (lit "rows", JArray [JString (lit "entry")])].

Definition exchange (log : api_log) (request : api_request) : api_reply :=
  if str_eqb (endpoint request)
       (lit "https://www.openaustralia.org.au/api/getSenator")
  then ApiJson senator_reply
  else if str_eqb (endpoint request)
       (lit "https://www.openaustralia.org.au/api/getDebates")
  then ApiJson (JArray [JString (lit "debate")])
  else ApiJson error_reply.

Definition api : ApiServer := {| api_exchange := exchange |}.

Definition client : OpenAustraliaAPI :=
  {| api_key := lit "secret";
     api_url := lit "https://www.openaustralia.org.au/api" |}.

(** A sheet of three rows, the second without text. *)
Definition sheet : DataFrame str :=
  {| df_columns := [lit "Date"; lit "Speaker"; lit "Speech"];
     df_rows :=
       [ [(lit "Date", lit "2024-05-14"); (lit "Speaker", lit "A");
          (lit "Speech", lit "First remarks.")];
         [(lit "Date", lit "2024-05-15"); (lit "Speaker", lit "B");
          (lit "Speech", lit "   ")];
         [(lit "Date", lit "2024-05-16"); (lit "Speaker", lit "C");
          (lit "Speech", [233; 116; 233]%N)] ] |}.

(** The pages written for that sheet, whose cells are strings. *)
Definition sheet_pages : list Page :=
  items_written
    (export_speeches_from_excel_to_pdf (ucd := Examples.ucd_excerpt)
       (fun text : str => text) (Some sheet)).

(** An entry whose locator is absolute and has a fragment. *)
Definition absolute_entry : Entry :=
  Examples.entry_of "2024-05-14" Examples.ellipsis_body
    (Some (lit "https://www.openaustralia.org.au/debates/?id=gone#g3.2")).

End ClientExamples.

(* ===================================================================== *)
(** * The export with the [ValueError] of [urljoin] *)
(* ===================================================================== *)

(** The references on which [urllib.parse.urljoin] raises [ValueError]:
    on the others it returns the value of [urljoin]. *)
Class UrlErrors := { urljoin_raises : str -> bool }.

(** How the error codes of [requests] read: [raise_for_status] raises
    [HTTPError] on the codes from 400 to 599 and on no other. *)
Class RequestsStatus (net : Network) : Prop := {
  raise_for_status_codes : forall response,
    raise_for_status response
    = if ((400 <=? status_code response) && (status_code response <? 600))%Z
      then Some (HTTPError (status_code response))
      else None
}.

(** A result that is already known, inside a computation. *)
Definition lift {A : Type} (result : exn + A) : IO A := fun h => (result, h).

Module Raising.
Section ExportLoop.
Context {net : Network} {urls : UrlLib} {html : HtmlLib} {errors : UrlErrors}.

(** [urljoin(base, url)] *)
Definition urljoin_or_raise (base url : str) : exn + str :=
  if urljoin_raises url then inl ValueError else inr (urljoin base url).

(** The absolute URL of a locator that was already unescaped. *)
Definition absolute_url (unescaped_url : str) : exn + str :=
  if negb (startswith unescaped_url (lit "http"))
  then urljoin_or_raise BASE_URL unescaped_url
  else inr unescaped_url.

(** The body of the [try] of [fetch_full_speech]: the URL is resolved
    inside it, before the request. *)
Definition fetch_full_speech_try (url : str) : IO str :=
  let unescaped_url := before_first HASH (unescape url) in
  (full_url <- lift (absolute_url unescaped_url) ;;
   response <- requests_get full_url ;;
   check_status response ;;
   page <- parse_html (content response) ;;
   let speech_div :=
     or_else (find page (div_class "speech"))
       (or_else (find page (div_class "speech_text"))
          (or_else (find page (div_id "speech"))
             (find page (div_class "debate-body")))) in
   let full_speech :=
     match speech_div with
     | Some d => strip (tag_get_text d NEWLINE)
     | None => strip (soup_get_text page SPACE)
     end in
   let cleaned_speech := join SPACE (split full_speech) in
   ret cleaned_speech)%io.

Definition fetch_full_speech (url : str) : history -> str * history :=
  try_except (fetch_full_speech_try url) SENTINEL.

(** One iteration of the loop of [export_speeches_to_csv].  The URL of
    the row is resolved first, outside any [try]: its [ValueError] leaves
    the loop. *)
Definition export_row (entry : Entry) : IO Row :=
  let hansard_id := gid entry in
  let date := hdate entry in
  let speaker :=
    get_default
      (full_name (get_default (speaker entry) {| full_name := None |}))
      (lit "Unknown") in
  let body := entry_body entry in
  (full_url <- match detail_url entry with
               | Some u => lift (absolute_url (unescape u))
               | None => ret NO_URL
               end ;;
   full_speech <- (if is_truncated body then
                     match detail_url entry with
                     | Some u =>
                         fun h => let (text, h') := fetch_full_speech u h in
                                  (inr text, h')
                     | None => ret SENTINEL
                     end
                   else ret body) ;;
   ret {| Hansard_ID := hansard_id; Date := date; Speaker := speaker;
          URL := full_url; Speech := full_speech |})%io.

(** [for entry in hansard_entries: ...; speeches.append(...)] *)
Fixpoint speeches_loop (hansard_entries : list Entry) (speeches : list Row)
    : IO (list Row) :=
  match hansard_entries with
  | [] => ret speeches
  | entry :: rest =>
      (row <- export_row entry ;;
       speeches_loop rest (speeches ++ [row]))%io
  end.

(** [export_speeches_to_csv]: the sheet is written after the loop, so an
    exception in the loop leaves no row written. *)
Definition export_speeches_to_csv {dates : DateLib} (key : option str)
    (hansard_data : option (list Entry)) (h : history)
    : export_result Row * history :=
  match key with
  | None => (NothingWritten, h)
  | Some k =>
      if truthy k then
        let hansard_entries :=
          get_hansard_by_date_range (lit "2023-12-05") (lit "2024-12-05")
            hansard_data in
        match hansard_entries with
        | [] => (NothingWritten, h)
        | _ :: _ =>
            match speeches_loop hansard_entries [] h with
            | (inr speeches, h') => (Written speeches, h')
            | (inl _, h') => (Raised, h')
            end
        end
      else (NothingWritten, h)
  end.

End ExportLoop.
End Raising.

(** [urljoin] accepts the locator of an entry, as it is and without its
    fragment: the two references the export resolves. *)
Definition locator_resolves {urls : UrlLib} {errors : UrlErrors}
    (entry : Entry) : Prop :=
  forall u,
    detail_url entry = Some u ->
    Raising.absolute_url (unescape u) = inr (absolute_url (unescape u)) /\
    Raising.absolute_url (before_first HASH (unescape u))
    = inr (absolute_url (before_first HASH (unescape u))).

(** An entry whose locator [urljoin] refuses. *)
Definition locator_refused {urls : UrlLib} {errors : UrlErrors}
    (entry : Entry) : Prop :=
  exists u,
    detail_url entry = Some u /\
    Raising.absolute_url (unescape u) = inl ValueError.

(* ===================================================================== *)
(** * Locators, statuses and pages for the examples *)
(* ===================================================================== *)

Module LocatorExamples.

(** The host of a reference that starts with two slashes: what follows
    them, up to the first slash, question mark or hash. *)
Fixpoint until_delimiter (s : str) : str :=
  match s with
  | [] => []
  | c :: s' =>
      if ((c =? 47) || (c =? 63) || (c =? 35))%N then []
      else c :: until_delimiter s'
  end.

Definition netloc (reference : str) : str :=
  match reference with
  | 47%N :: 47%N :: rest => until_delimiter rest
  | _ => []
  end.

Definition has (c : codepoint) (s : str) : bool := existsb (N.eqb c) s.

(** The check of [urlsplit] that [urljoin] runs on a reference without
    scheme: a bracket in the host without the other one. *)
Definition unmatched_bracket (reference : str) : bool :=
  let host := netloc reference in
  (has 91%N host && negb (has 93%N host))
  || (has 93%N host && negb (has 91%N host)).

Definition bracket_errors : UrlErrors :=
  {| urljoin_raises := unmatched_bracket |}.

(** A complete entry whose locator has an unmatched bracket. *)
Definition bad_locator_entry : Entry :=
  Examples.entry_of "2024-05-15" Examples.long_body (Some (lit "//[bad")).

(** A listing of three entries, the second with that locator. *)
Definition listing : list Entry :=
  [Examples.truncated_entry; bad_locator_entry; Examples.complete_entry].

(** A site that answers one locator with 300 Multiple Choices. *)
Definition choices_url : str :=
  lit "https://www.openaustralia.org.au/debates/?id=choices".

Definition choices_response : Response :=
  {| status_code := 300;
     content := list_byte_of_string "Pick one of the mirrors." |}.

Definition choices_site (h : history) (url : str) : exn + Response :=
  if str_eqb url choices_url then inr choices_response
  else Examples.site h url.

Definition choices_web : Network :=
  {| http_get := choices_site; raise_for_status := Examples.status_error |}.

(** Pages that are one [div] of class [speech], or text without
    markup. *)
Definition SPEECH_OPEN : str := lit "<div class='speech'>".

Fixpoint drop_prefix (prefix s : str) : option str :=
  match prefix, s with
  | [], _ => Some s
  | _ :: _, [] => None
  | a :: prefix', b :: s' =>
      if N.eqb a b then drop_prefix prefix' s' else None
  end.

(** The text of the [div], up to its closing tag. *)
Definition speech_div (page : str) : option str :=
  match drop_prefix SPEECH_OPEN page with
  | Some rest => Some (before_first 60%N rest)
  | None => None
  end.

Definition selector_eqb (a b : selector) : bool :=
  str_eqb (sel_name a) (sel_name b) && str_eqb (sel_attr a) (sel_attr b)
  && str_eqb (sel_value a) (sel_value b).

Definition div_pages : HtmlLib :=
  {| soup := str;
     tag := str;
     BeautifulSoup := fun data => inr (List.map Byte.to_N data);
     find := fun page sel =>
       if selector_eqb sel (div_class "speech") then speech_div page
       else None;
     soup_get_text := fun page _ =>
       match speech_div page with
       | Some text => text
       | None => page
       end;
     tag_get_text := fun d _ => d |}.

Definition speech_url : str :=
  lit "https://www.openaustralia.org.au/debates/?id=speech".

Definition speech_response : Response :=
  {| status_code := 200;
     content :=
       list_byte_of_string
         "<div class='speech'>  Mr President,   I rise.  </div>" |}.

(** The site as a client that sends a [User-Agent] sees it, and as one
    that sends none: this page is served to both. *)
Definition agent_web : Network :=
  {| http_get := fun h url =>
       if str_eqb url speech_url then inr speech_response
       else Examples.site h url;
     raise_for_status := Examples.status_error |}.

Definition plain_web : Network :=
  {| http_get := fun h url =>
       if str_eqb url speech_url then inr speech_response
       else inr {| status_code := 403;
                   content := list_byte_of_string "Forbidden" |};
     raise_for_status := Examples.status_error |}.

End LocatorExamples.

(* ===================================================================== *)
(** * Facts on strings *)
(* ===================================================================== *)

Module PyStrFacts.

Lemma reversed_rev (s : str) : reversed s = rev s.
Proof. unfold reversed. now rewrite rev_append_rev, app_nil_r. Qed.

Lemma len_app (a b : str) : len (a ++ b) = (len a + len b)%Z.
Proof. unfold len. rewrite length_app. lia. Qed.

Lemma len_cons (c : codepoint) (s : str) : len (c :: s) = (1 + len s)%Z.
Proof. unfold len. simpl List.length. lia. Qed.

Lemma len_nonneg (s : str) : (0 <= len s)%Z.
Proof. unfold len. lia. Qed.

Lemma len_reversed (s : str) : len (reversed s) = len s.
Proof. unfold len. now rewrite reversed_rev, length_rev. Qed.

(** [startswith] decides being a prefix. *)
Lemma startswith_prefix (s prefix : str) :
  startswith s prefix = true <-> exists rest, s = prefix ++ rest.
Proof.
  revert s. induction prefix as [|p prefix IH]; intros s; simpl.
  - split; [intros _; now exists s | intros _; now destruct s].
  - destruct s as [|c s]; simpl.
    + split; [discriminate | intros [rest H]; discriminate].
    + rewrite andb_true_iff, N.eqb_eq, IH. split.
      * intros [-> [rest ->]]. now exists rest.
      * intros [rest H]. injection H as -> ->. split; [reflexivity | now exists rest].
Qed.

(** [endswith] decides being a suffix. *)
Lemma endswith_suffix (s suffix : str) :
  endswith s suffix = true <-> exists front, s = front ++ suffix.
Proof.
  unfold endswith. rewrite !reversed_rev, startswith_prefix. split.
  - intros [rest H]. exists (rev rest).
    rewrite <- (rev_involutive s), H, rev_app_distr, rev_involutive.
    reflexivity.
  - intros [front ->]. exists (rev front). apply rev_app_distr.
Qed.

(** [contains] decides having a substring. *)
Lemma contains_substring (sub s : str) :
  contains sub s = true <-> exists front back, s = front ++ sub ++ back.
Proof.
  induction s as [|c s IH]; cbn [contains].
  - rewrite orb_false_r, startswith_prefix. split.
    + intros [rest H]. now exists [], rest.
    + intros [front [back H]]. destruct front as [|x front]; [|discriminate].
      now exists back.
  - rewrite orb_true_iff, startswith_prefix, IH. split.
    + intros [[rest H] | [front [back H]]].
      * now exists [], rest.
      * exists (c :: front), back. now rewrite H.
    + intros [front [back H]]. destruct front as [|x front].
      * left. now exists back.
      * right. injection H as _ H. now exists front, back.
Qed.

Lemma endswith_false (s suffix : str) :
  endswith s suffix = false <-> ~ exists front, s = front ++ suffix.
Proof.
  rewrite <- endswith_suffix. destruct (endswith s suffix); split; intros H.
  - discriminate.
  - now contradiction H.
  - discriminate.
  - reflexivity.
Qed.

Lemma contains_false (sub s : str) :
  contains sub s = false <-> ~ exists front back, s = front ++ sub ++ back.
Proof.
  rewrite <- contains_substring. destruct (contains sub s); split; intros H.
  - discriminate.
  - now contradiction H.
  - discriminate.
  - reflexivity.
Qed.

End PyStrFacts.

Import PyStrFacts.

(* ===================================================================== *)
(** * Truncation heuristic: properties *)
(* ===================================================================== *)

(** C3, as stated, fails: a body of two hundred spaces has no character
    left after trimming, fewer than 200, and is still classified as
    complete, because the code measures the body as it is. *)
Lemma blank_body_not_truncated :
  (len (strip Examples.blank_body) < 200)%Z /\
  is_truncated Examples.blank_body = false.
Proof. split; vm_compute; reflexivity. Qed.

(** C3, amended: every body whose own length, untrimmed, is below 200
    characters is classified as truncated. *)
Theorem is_truncated_short (body : str) :
  (len body < 200)%Z -> is_truncated body = true.
Proof.
  intros Hshort. unfold is_truncated.
  apply Z.ltb_lt in Hshort. rewrite Hshort. apply orb_true_r.
Qed.

Lemma is_truncated_short_witness :
  is_truncated (lit "Hear, hear!") = true.
Proof. apply is_truncated_short. vm_compute. reflexivity. Defined.

(** C4: a body that ends with "..." or contains "&#" is truncated whatever
    its length, and a body of at least 200 characters with neither marker
    is not. *)
Theorem is_truncated_markers (body : str) :
  ((exists front, body = front ++ ELLIPSIS) -> is_truncated body = true) /\
  ((exists front back, body = front ++ ENTITY_MARKER ++ back) ->
   is_truncated body = true) /\
  ((200 <= len body)%Z ->
   ~ (exists front, body = front ++ ELLIPSIS) ->
   ~ (exists front back, body = front ++ ENTITY_MARKER ++ back) ->
   is_truncated body = false).
Proof.
  unfold is_truncated. repeat split.
  - intros H. apply endswith_suffix in H. now rewrite H.
  - intros H. apply contains_substring in H. rewrite H.
    now rewrite orb_true_r.
  - intros Hlong Hend Hent.
    apply endswith_false in Hend. apply contains_false in Hent.
    rewrite Hend, Hent. simpl. apply Z.ltb_ge. exact Hlong.
Qed.

Lemma is_truncated_markers_witness :
  is_truncated (Examples.long_body ++ ELLIPSIS) = true /\
  is_truncated Examples.entity_body = true /\
  is_truncated Examples.long_body = false.
Proof.
  split; [|split].
  - apply (proj1 (is_truncated_markers (Examples.long_body ++ ELLIPSIS))).
    exists Examples.long_body. reflexivity.
  - apply (proj1 (proj2 (is_truncated_markers Examples.entity_body))).
    exists Examples.long_body, (lit "8212;" ++ Examples.long_body).
    reflexivity.
  - apply (proj2 (proj2 (is_truncated_markers Examples.long_body))).
    + vm_compute. discriminate.
    + apply endswith_false. vm_compute. reflexivity.
    + apply contains_false. vm_compute. reflexivity.
Defined.

(* ===================================================================== *)
(** * Listing client: properties *)
(* ===================================================================== *)

(** A parsed reply without an ['error'] key reaches [get_hansard] as it
    is; every failure of the exchange reaches it as [None]. *)
Lemma make_call_parsed (data : json) :
  (forall d, data = JObject d -> dict_get (lit "error") d = None) ->
  _make_call (ApiJson data) = data.
Proof.
  intros Hno. destruct data; try reflexivity.
  simpl. now rewrite (Hno items eq_refl).
Qed.

(** C7, as stated, fails: for a parsed object that has neither [rows] nor
    [error] the client returns [None], which is not the empty sequence
    the specification describes. *)
Lemma no_rows_reply_is_none :
  get_hansard (_make_call (ApiJson Examples.no_rows_reply)) = JNull /\
  get_hansard_spec (_make_call (ApiJson Examples.no_rows_reply)) = JArray [] /\
  get_hansard (_make_call (ApiJson Examples.no_rows_reply))
    <> get_hansard_spec (_make_call (ApiJson Examples.no_rows_reply)).
Proof. repeat split. vm_compute. discriminate. Qed.

(** C7, amended: on the value [_make_call] returned, [get_hansard] gives
    the value under [rows] for an object that has that key, an array as
    it is, and [None] for every other value; it is a total function, so no
    error is signalled. *)
Theorem get_hansard_unwraps (data : json) :
  (forall d rows,
     data = JObject d -> dict_get (lit "rows") d = Some rows ->
     get_hansard data = rows) /\
  (forall items, data = JArray items -> get_hansard data = JArray items) /\
  ((forall d, data = JObject d -> dict_get (lit "rows") d = None) ->
   (forall items, data <> JArray items) ->
   get_hansard data = JNull).
Proof.
  repeat split.
  - intros d rows -> Hrows. simpl. now rewrite Hrows.
  - intros items ->. reflexivity.
  - intros Hobj Harr. destruct data; try reflexivity.
    + now contradiction (Harr items).
    + simpl. now rewrite (Hobj items eq_refl).
Qed.

Lemma get_hansard_unwraps_witness :
  get_hansard Examples.rows_reply = JArray [JString (lit "entry")] /\
  get_hansard (JArray [JNull]) = JArray [JNull] /\
  get_hansard (JString (lit "maintenance")) = JNull.
Proof.
  split; [|split].
  - apply (proj1 (get_hansard_unwraps Examples.rows_reply)
             [(lit "info", JNull); (lit "rows", JArray [JString (lit "entry")])]).
    + reflexivity.
    + vm_compute. reflexivity.
  - apply (proj1 (proj2 (get_hansard_unwraps (JArray [JNull])))).
    reflexivity.
  - apply (proj2 (proj2 (get_hansard_unwraps (JString (lit "maintenance"))))).
    + intros d H. discriminate.
    + intros items H. discriminate.
Defined.

(* ===================================================================== *)
(** * Date-range filter: properties *)
(* ===================================================================== *)

Section DateRangeFacts.
Context {dates : DateLib}.

Lemma datetime_leb_refl (d : datetime) : datetime_leb d d = true.
Proof.
  unfold datetime_leb.
  rewrite !Z.eqb_refl, Z.leb_refl, !orb_true_r. reflexivity.
Qed.

(** When every date parses the comprehension is a plain filter. *)
Lemma filter_by_date_all_parse (d1 d2 : datetime) (records : list Entry) :
  Forall (fun entry => entry_date entry <> None) records ->
  filter_by_date d1 d2 records = Some (filter (in_range d1 d2) records).
Proof.
  induction 1 as [|entry records Hentry _ IH]; simpl.
  - reflexivity.
  - unfold in_range at 1. rewrite IH.
    destruct (entry_date entry) as [d|]; [|now contradiction Hentry].
    now destruct (datetime_leb d1 d && datetime_leb d d2).
Qed.

(** One date that does not parse makes the comprehension raise. *)
Lemma filter_by_date_raises (d1 d2 : datetime) (records : list Entry) :
  Exists (fun entry => entry_date entry = None) records ->
  filter_by_date d1 d2 records = None.
Proof.
  induction 1 as [entry records Hentry | entry records _ IH]; simpl.
  - now rewrite Hentry.
  - rewrite IH. now destruct (entry_date entry).
Qed.

End DateRangeFacts.

Section DateRangeClaims.
Context {dates : DateLib}.

(** C6, amended: when both bounds parse and every record's date text (the
    [hdate] field, or 1900-01-01 for a record without one) parses, the
    result is exactly the records with [d1 <= date <= d2], both bounds
    included, in the order of the input; when some record's date text does
    not parse the result is the empty list. *)
Theorem get_hansard_by_date_range_filters
    (start_date end_date : str) (d1 d2 : datetime) (records : list Entry) :
  strptime start_date = Some d1 ->
  strptime end_date = Some d2 ->
  (Forall (fun entry => entry_date entry <> None) records ->
   get_hansard_by_date_range start_date end_date (Some records)
   = filter (in_range d1 d2) records) /\
  (Exists (fun entry => entry_date entry = None) records ->
   get_hansard_by_date_range start_date end_date (Some records) = []) /\
  (forall entry, hdate entry = None ->
   entry_date entry = strptime DEFAULT_HDATE) /\
  (forall entry,
     datetime_leb d1 d2 = true ->
     entry_date entry = Some d1 \/ entry_date entry = Some d2 ->
     in_range d1 d2 entry = true).
Proof.
  intros Hstart Hend. unfold get_hansard_by_date_range.
  rewrite Hstart, Hend. repeat split.
  - intros Hall. destruct records as [|entry records]; [reflexivity|].
    now rewrite (filter_by_date_all_parse d1 d2 Hall).
  - intros Hbad. destruct records as [|entry records]; [reflexivity|].
    now rewrite (filter_by_date_raises d1 d2 Hbad).
  - intros entry Hnone. unfold entry_date. now rewrite Hnone.
  - intros entry Hle [Hd | Hd]; unfold in_range; rewrite Hd.
    + now rewrite datetime_leb_refl, Hle.
    + now rewrite datetime_leb_refl, Hle.
Qed.

End DateRangeClaims.

(** C6, as stated, fails: one record whose date does not parse empties
    the whole result, so that the record dated 2024-05-14, inside the
    range, is not returned; read as the specification words it, the
    filter keeps that record. *)
Lemma unparsable_date_drops_all :
  get_hansard_by_date_range (dates := Examples.ascii_dates)
    (lit "2023-12-05") (lit "2024-12-05")
    (Some [Examples.truncated_entry; Examples.undated_entry]) = [] /\
  filterByDateRange_spec (dates := Examples.ascii_dates)
    [Examples.truncated_entry; Examples.undated_entry]
    Examples.range_start Examples.range_end = [Examples.truncated_entry].
Proof. split; vm_compute; reflexivity. Qed.

Lemma get_hansard_by_date_range_filters_witness :
  get_hansard_by_date_range (dates := Examples.ascii_dates)
    (lit "2023-12-05") (lit "2024-12-05")
    (Some [Examples.truncated_entry; Examples.dateless_entry;
           Examples.complete_entry])
  = filter (in_range (dates := Examples.ascii_dates)
              Examples.range_start Examples.range_end)
      [Examples.truncated_entry; Examples.dateless_entry;
       Examples.complete_entry].
Proof.
  apply (proj1 (get_hansard_by_date_range_filters
                  (dates := Examples.ascii_dates)
                  (lit "2023-12-05") (lit "2024-12-05")
                  (d1 := Examples.range_start) (d2 := Examples.range_end)
                  [Examples.truncated_entry; Examples.dateless_entry;
                   Examples.complete_entry]
                  eq_refl eq_refl)).
  repeat constructor; vm_compute; discriminate.
Defined.

(* ===================================================================== *)
(** * Fallback fetcher and export loop: properties *)
(* ===================================================================== *)

(** Unfolds one run of a fetcher down to the calls of the libraries. *)
Ltac run_fetch :=
  unfold fetch_full_speech, TestPy.fetch_full_speech, try_except,
    fetch_full_speech_try, TestPy.fetch_full_speech_try, bind,
    requests_get, check_status, parse_html, raise, ret, requested_url.

Section PipelineFacts.
Context {net : Network} {urls : UrlLib} {html : HtmlLib}.


(** The loop, one entry at a time. *)
Lemma speeches_loop_acc (entries : list Entry) (acc : list Row) (h : history) :
  fold_left
    (fun (st : list Row * history) entry =>
       let (row, h') := export_row entry (snd st) in
       (fst st ++ [row], h'))
    entries (acc, h)
  = (acc ++ fst (speeches_loop entries h), snd (speeches_loop entries h)).
Proof.
  unfold speeches_loop. revert acc h.
  induction entries as [|entry entries IH]; intros acc h; simpl.
  - now rewrite app_nil_r.
  - destruct (export_row entry h) as [row h'].
    rewrite (IH (acc ++ [row]) h'), (IH [row] h'). simpl.
    now rewrite <- app_assoc.
Qed.

Lemma speeches_loop_cons (entry : Entry) (rest : list Entry) (h : history) :
  speeches_loop (entry :: rest) h
  = (fst (export_row entry h)
       :: fst (speeches_loop rest (snd (export_row entry h))),
     snd (speeches_loop rest (snd (export_row entry h)))).
Proof.
  unfold speeches_loop at 1. simpl.
  destruct (export_row entry h) as [row h']. simpl.
  now rewrite speeches_loop_acc.
Qed.

(** The row of a truncated entry that has a detail URL. *)
Lemma export_row_fetched (entry : Entry) (h : history) (u : str) :
  is_truncated (entry_body entry) = true ->
  detail_url entry = Some u ->
  Speech (fst (export_row entry h)) = fst (fetch_full_speech u h) /\
  snd (export_row entry h) = snd (fetch_full_speech u h).
Proof.
  intros Htrunc Hurl. unfold export_row. rewrite Htrunc, Hurl.
  now destruct (fetch_full_speech u h).
Qed.

End PipelineFacts.

Section PipelineClaims.
Context {net : Network} {urls : UrlLib} {html : HtmlLib} {dates : DateLib}.


(** The columns of a row that are copied from its entry. *)
Lemma export_row_copies (entry : Entry) (h : history) :
  Hansard_ID (fst (export_row entry h)) = gid entry /\
  Date (fst (export_row entry h)) = hdate entry.
Proof.
  unfold export_row.
  destruct (is_truncated (entry_body entry)); [|now split].
  destruct (detail_url entry); [|now split].
  now destruct (fetch_full_speech s h).
Qed.

(** A fetch that raised gives the sentinel. *)
Lemma fetch_full_speech_raised (url : str) (h h' : history) (e : exn) :
  fetch_full_speech_try url h = (inl e, h') ->
  fetch_full_speech url h = (SENTINEL, h').
Proof.
  intros Htry. unfold fetch_full_speech, try_except. now rewrite Htry.
Qed.

(** On locators that [urljoin] resolves, which is what [UrlLib] models,
    the loop appends one row per entry, in the order of the entries: the
    row at each position is the one built from the entry at that position,
    and an entry whose fallback fetch raised has its row all the same,
    with the sentinel as text.  [Raising.speeches_loop] is the loop with
    the locators that [urljoin] refuses. *)
Theorem speeches_loop_one_per_entry (entries : list Entry) (h : history) :
  List.length (fst (speeches_loop entries h)) = List.length entries /\
  Forall2
    (fun entry row =>
       Hansard_ID row = gid entry /\ Date row = hdate entry /\
       exists h0,
         row = fst (export_row entry h0) /\
         (forall u e h1,
            is_truncated (entry_body entry) = true ->
            detail_url entry = Some u ->
            fetch_full_speech_try u h0 = (inl e, h1) ->
            Speech row = SENTINEL))
    entries (fst (speeches_loop entries h)) /\
  (forall key hansard_data,
     truthy key = true ->
     rows_written (export_speeches_to_csv (Some key) hansard_data h)
     = fst (speeches_loop
              (get_hansard_by_date_range (lit "2023-12-05")
                 (lit "2024-12-05") hansard_data) h)).
Proof.
  split; [|split].
  - revert h. induction entries as [|entry rest IH]; intros h.
    + reflexivity.
    + rewrite speeches_loop_cons. simpl. now rewrite IH.
  - revert h. induction entries as [|entry rest IH]; intros h.
    + constructor.
    + rewrite speeches_loop_cons. simpl. constructor; [|apply IH].
      destruct (export_row_copies entry h) as [Hid Hdate].
      split; [exact Hid|]. split; [exact Hdate|].
      exists h. split; [reflexivity|].
      intros u e h1 Htrunc Hurl Htry.
      rewrite (proj1 (export_row_fetched entry h Htrunc Hurl)).
      now rewrite (fetch_full_speech_raised _ _ Htry).
  - intros key hansard_data Hkey.
    unfold rows_written, export_speeches_to_csv. rewrite Hkey.
    destruct (get_hansard_by_date_range _ _ hansard_data) as [|entry rest].
    + reflexivity.
    + now destruct (speeches_loop (entry :: rest) h).
Qed.

(** C5, amended: [fetch_full_speech] always returns a string.  Whenever a
    step of the fetch raises, the result is the sentinel: a request that
    fails, a response with a status from 400 to 599, which is where
    [raise_for_status] raises, a page the parser rejects; the export loop
    then goes on with the entries that follow.  A response with any other
    status, in the 200s or not, is parsed and its text is returned. *)
Theorem fetch_full_speech_absorbs_errors (codes : RequestsStatus net)
    (url : str) (h : history) :
  (forall e h',
     fetch_full_speech_try url h = (inl e, h') ->
     fetch_full_speech url h = (SENTINEL, h')) /\
  (forall e,
     http_get h (requested_url url) = inl e ->
     fst (fetch_full_speech url h) = SENTINEL) /\
  (forall response,
     http_get h (requested_url url) = inr response ->
     (400 <= status_code response < 600)%Z ->
     fst (fetch_full_speech url h) = SENTINEL) /\
  (forall response e,
     http_get h (requested_url url) = inr response ->
     ~ (400 <= status_code response < 600)%Z ->
     BeautifulSoup (content response) = inl e ->
     fst (fetch_full_speech url h) = SENTINEL) /\
  (forall response page,
     http_get h (requested_url url) = inr response ->
     ~ (400 <= status_code response < 600)%Z ->
     BeautifulSoup (content response) = inr page ->
     fst (fetch_full_speech url h)
     = collapse
         match
           or_else (find page (div_class "speech"))
             (or_else (find page (div_class "speech_text"))
                (or_else (find page (div_id "speech"))
                   (find page (div_class "debate-body"))))
         with
         | Some d => strip (tag_get_text d NEWLINE)
         | None => strip (soup_get_text page SPACE)
         end) /\
  (forall entry rest e h',
     is_truncated (entry_body entry) = true ->
     detail_url entry = Some url ->
     fetch_full_speech_try url h = (inl e, h') ->
     exists row,
       Speech row = SENTINEL /\
       fst (speeches_loop (entry :: rest) h)
       = row :: fst (speeches_loop rest h')).
Proof.
  assert (forall response,
            (400 <= status_code response < 600)%Z ->
            raise_for_status response
            = Some (HTTPError (status_code response))) as Herror.
  { intros response Hcode. rewrite raise_for_status_codes.
    destruct (Z.leb_spec 400 (status_code response)); [|lia].
    destruct (Z.ltb_spec (status_code response) 600); [reflexivity|lia]. }
  assert (forall response,
            ~ (400 <= status_code response < 600)%Z ->
            raise_for_status response = None) as Hfine.
  { intros response Hcode. rewrite raise_for_status_codes.
    destruct (Z.leb_spec 400 (status_code response)); [|reflexivity].
    destruct (Z.ltb_spec (status_code response) 600); [lia|reflexivity]. }
  split; [|split; [|split; [|split; [|split]]]].
  - intros e h'. apply fetch_full_speech_raised.
  - intros e Hget. run_fetch. unfold requested_url in Hget.
    now rewrite Hget.
  - intros response Hget Hcode. run_fetch. unfold requested_url in Hget.
    now rewrite Hget, (Herror response Hcode).
  - intros response e Hget Hcode Hparse. run_fetch.
    unfold requested_url in Hget.
    now rewrite Hget, (Hfine response Hcode), Hparse.
  - intros response page Hget Hcode Hparse. run_fetch.
    unfold requested_url in Hget.
    now rewrite Hget, (Hfine response Hcode), Hparse.
  - intros entry rest e h' Htrunc Hurl Htry.
    exists (fst (export_row entry h)). rewrite speeches_loop_cons.
    pose proof (fetch_full_speech_raised _ _ Htry) as Hfetch.
    unfold export_row. rewrite Htrunc, Hurl, Hfetch. now split.
Qed.

End PipelineClaims.


(** The scenario of the specification: the truncated remark is replaced by
    the text of its detail page, fetched without the fragment. *)
Example budget_scenario :
  export_row (net := Examples.web) (urls := Examples.path_urls)
    (html := Examples.text_pages) Examples.truncated_entry []
  = ({| Hansard_ID := Some (lit "uk.org.publicwhip/lords/2024-05-14.3.1");
        Date := Some (lit "2024-05-14");
        Speaker := lit "Penny Wong";
        URL := lit "https://www.openaustralia.org.au/debates/?id=2024-05-14.3.1#g3.2";
        Speech := lit "Full remarks on the budget bill." |},
     [Examples.budget_url]).
Proof. vm_compute. reflexivity. Qed.

Lemma speeches_loop_one_per_entry_witness :
  List.length
    (fst (speeches_loop (net := Examples.web) (urls := Examples.path_urls)
            (html := Examples.text_pages)
            [Examples.truncated_entry; Examples.gone_entry;
             Examples.complete_entry; Examples.orphan_entry] []))
  = List.length
      [Examples.truncated_entry; Examples.gone_entry;
       Examples.complete_entry; Examples.orphan_entry] /\
  rows_written
    (export_speeches_to_csv (net := Examples.web)
       (urls := Examples.path_urls) (html := Examples.text_pages)
       (dates := Examples.ascii_dates) (Some (lit "key"))
       (Some [Examples.truncated_entry; Examples.gone_entry]) [])
  = fst (speeches_loop (net := Examples.web) (urls := Examples.path_urls)
           (html := Examples.text_pages)
           (get_hansard_by_date_range (dates := Examples.ascii_dates)
              (lit "2023-12-05") (lit "2024-12-05")
              (Some [Examples.truncated_entry; Examples.gone_entry])) []).
Proof.
  split.
  - apply (proj1 (speeches_loop_one_per_entry (net := Examples.web)
                    (urls := Examples.path_urls) (html := Examples.text_pages)
                    (dates := Examples.ascii_dates)
                    [Examples.truncated_entry; Examples.gone_entry;
                     Examples.complete_entry; Examples.orphan_entry] [])).
  - apply (proj2 (proj2 (speeches_loop_one_per_entry (net := Examples.web)
                    (urls := Examples.path_urls) (html := Examples.text_pages)
                    (dates := Examples.ascii_dates) [] []))).
    reflexivity.
Defined.

(** The entry whose detail page answers 404 keeps its place, between the
    rows of its neighbours, with the sentinel as text. *)
Example gone_entry_is_kept :
  List.map (fun row => (Date row, Speech row))
    (fst (speeches_loop (net := Examples.web) (urls := Examples.path_urls)
            (html := Examples.text_pages)
            [Examples.truncated_entry; Examples.gone_entry;
             Examples.complete_entry] []))
  = [(Some (lit "2024-05-14"), lit "Full remarks on the budget bill.");
     (Some (lit "2024-05-17"), SENTINEL);
     (Some (lit "2024-05-15"), Examples.long_body)].
Proof. vm_compute. reflexivity. Qed.

(** The example site reads the status codes as [requests] does. *)
Lemma web_status_codes : RequestsStatus Examples.web.
Proof. constructor. reflexivity. Qed.

Lemma fetch_full_speech_absorbs_errors_witness :
  fst (fetch_full_speech (net := Examples.web) (urls := Examples.path_urls)
         (html := Examples.text_pages) (lit "/debates/?id=gone") [])
  = SENTINEL /\
  fst (fetch_full_speech (net := Examples.web) (urls := Examples.path_urls)
         (html := Examples.text_pages) (lit "/nowhere") [])
  = SENTINEL.
Proof.
  split.
  - apply (proj1 (proj2 (proj2
             (fetch_full_speech_absorbs_errors (net := Examples.web)
                (urls := Examples.path_urls) (html := Examples.text_pages)
                web_status_codes (lit "/debates/?id=gone") [])))
           {| status_code := 404;
              content := list_byte_of_string "Not found" |}).
    + vm_compute. reflexivity.
    + simpl. lia.
  - apply (proj1 (proj2
             (fetch_full_speech_absorbs_errors (net := Examples.web)
                (urls := Examples.path_urls) (html := Examples.text_pages)
                web_status_codes (lit "/nowhere") []))
           RequestException).
    vm_compute. reflexivity.
Defined.

(* ===================================================================== *)
(** * Length of the text of a page without speech container *)
(* ===================================================================== *)

Module PyStrBounds.

Lemma len_lstrip (s : str) : (len (lstrip s) <= len s)%Z.
Proof.
  unfold len. induction s as [|c s IH]; simpl; [lia|].
  destruct (isspace c); simpl; lia.
Qed.

Lemma len_strip (s : str) : (len (strip s) <= len s)%Z.
Proof.
  unfold strip, rstrip. rewrite len_reversed.
  pose proof (len_lstrip (reversed (lstrip s))) as Hr.
  rewrite len_reversed in Hr.
  pose proof (len_lstrip s). lia.
Qed.

Lemma len_join_cons (sep w : str) (ws : list str) :
  (len (join sep (w :: ws)) <= len w + len sep + len (join sep ws))%Z.
Proof.
  destruct ws as [|w' ws].
  - cbn [join]. pose proof (len_nonneg sep) as Hsep.
    change (len []) with 0%Z. lia.
  - change (join sep (w :: w' :: ws)) with (w ++ sep ++ join sep (w' :: ws)).
    rewrite !len_app. lia.
Qed.

(** Joining the words of a text with single spaces does not make it
    longer. *)
Lemma len_join_split_run (cur s : str) :
  (len (join SPACE (split_run cur s)) <= len cur + len s)%Z.
Proof.
  revert cur. induction s as [|c s IH]; intros cur.
  - destruct cur as [|x cur]; simpl.
    + reflexivity.
    + rewrite len_reversed. lia.
  - cbn [split_run]. rewrite (len_cons c s). destruct (isspace c).
    + destruct cur as [|x cur].
      * specialize (IH []). change (len []) with 0%Z in *. lia.
      * pose proof (len_join_cons SPACE (reversed (x :: cur))
                      (split_run [] s)) as Hj.
        rewrite len_reversed in Hj. specialize (IH []).
        change (len SPACE) with 1%Z in Hj.
        change (len []) with 0%Z in IH. lia.
    + specialize (IH (c :: cur)). rewrite (len_cons c cur) in IH. lia.
Qed.

Lemma len_join_split (s : str) : (len (join SPACE (split s)) <= len s)%Z.
Proof. apply (len_join_split_run [] s). Qed.

Lemma len_slice_to (n : Z) (s : str) :
  (0 <= n)%Z -> (len (slice_to n s) <= n)%Z.
Proof.
  intros Hn. unfold len, slice_to.
  pose proof (firstn_le_length (Z.to_nat n) s) as Hs.
  rewrite length_firstn. lia.
Qed.

End PyStrBounds.

Import PyStrBounds.

Section NoContainer.
Context {net : Network} {urls : UrlLib} {html : HtmlLib}.

(** C8, amended: for a page that was fetched and parsed and in which no
    selector matches, [test.py]'s fetcher returns the first 100,000
    characters of the stripped document text followed by "...", at most
    100,003 characters; [speechGather.py]'s fetcher applies no cap: it
    returns the whole stripped document text with its runs of white space
    collapsed, which is bounded by the length of the document text only. *)
Theorem no_container_text (url : str) (h : history)
    (response : Response) (page : soup) :
  http_get h (requested_url url) = inr response ->
  raise_for_status response = None ->
  BeautifulSoup (content response) = inr page ->
  (TestPy.first_match page TestPy.possible_selectors = None ->
   fst (TestPy.fetch_full_speech url h)
   = slice_to TestPy.MAX_FALLBACK_CHARS (strip (soup_get_text page NEWLINE))
       ++ ELLIPSIS /\
   (len (fst (TestPy.fetch_full_speech url h)) <= 100003)%Z) /\
  (find page (div_class "speech") = None ->
   find page (div_class "speech_text") = None ->
   find page (div_id "speech") = None ->
   find page (div_class "debate-body") = None ->
   fst (fetch_full_speech url h)
   = join SPACE (split (strip (soup_get_text page SPACE))) /\
   (len (fst (fetch_full_speech url h)) <= len (soup_get_text page SPACE))%Z).
Proof.
  intros Hget Hstatus Hparse. unfold requested_url in Hget. split.
  - intros Hnone.
    assert (fst (TestPy.fetch_full_speech url h)
            = slice_to TestPy.MAX_FALLBACK_CHARS
                (strip (soup_get_text page NEWLINE)) ++ ELLIPSIS) as Heq.
    { run_fetch. now rewrite Hget, Hstatus, Hparse, Hnone. }
    split; [exact Heq|].
    rewrite Heq, len_app.
    pose proof (len_slice_to (n := TestPy.MAX_FALLBACK_CHARS)
                  (strip (soup_get_text page NEWLINE))) as Hcap.
    unfold TestPy.MAX_FALLBACK_CHARS in *.
    change (len ELLIPSIS) with 3%Z. lia.
  - intros H1 H2 H3 H4.
    assert (fst (fetch_full_speech url h)
            = join SPACE (split (strip (soup_get_text page SPACE)))) as Heq.
    { run_fetch. now rewrite Hget, Hstatus, Hparse, H1, H2, H3, H4. }
    split; [exact Heq|].
    rewrite Heq.
    pose proof (len_join_split (strip (soup_get_text page SPACE))).
    pose proof (len_strip (soup_get_text page SPACE)). lia.
Qed.

End NoContainer.

(** C8, as stated, fails on [speechGather.py]: a page of 200,000 letters
    in which no selector matches comes back whole, 200,000 characters
    long, above the 100,003 characters that [test.py]'s cap allows. *)
Lemma long_page_is_not_capped :
  find (HtmlLib := Examples.text_pages)
    (List.map Byte.to_N Examples.long_page) (div_class "speech") = None /\
  len (fst (fetch_full_speech (net := Examples.web)
              (urls := Examples.path_urls) (html := Examples.text_pages)
              (lit "/debates/?id=long") [])) = 200000%Z /\
  len (fst (TestPy.fetch_full_speech (net := Examples.web)
              (urls := Examples.path_urls) (html := Examples.text_pages)
              (lit "/debates/?id=long") [])) = 100003%Z.
Proof. repeat split; vm_compute; reflexivity. Qed.

Lemma no_container_text_witness :
  (len (fst (TestPy.fetch_full_speech (net := Examples.web)
               (urls := Examples.path_urls) (html := Examples.text_pages)
               (lit "/debates/?id=long") [])) <= 100003)%Z /\
  (len (fst (fetch_full_speech (net := Examples.web)
               (urls := Examples.path_urls) (html := Examples.text_pages)
               (lit "/debates/?id=long") []))
   <= len (soup_get_text (HtmlLib := Examples.text_pages)
             (List.map Byte.to_N Examples.long_page) SPACE))%Z.
Proof.
  pose proof (no_container_text (net := Examples.web)
                (urls := Examples.path_urls) (html := Examples.text_pages)
                (lit "/debates/?id=long") []
                (response := {| status_code := 200;
                                content := Examples.long_page |})
                (page := List.map Byte.to_N Examples.long_page)
                eq_refl eq_refl eq_refl) as [Htest Hgather].
  split.
  - apply Htest. reflexivity.
  - apply Hgather; reflexivity.
Defined.

(* ===================================================================== *)
(** * Text normaliser: properties *)
(* ===================================================================== *)

Section NormalizerFacts.
Context {ucd : UnicodeData}.

(** Encoding with ['ignore'] and decoding again keeps the ASCII
    characters, in their order, and cannot raise. *)
Lemma decode_encode_ascii (text : str) :
  decode_ascii (encode_ascii_ignore text) = Some (filter below_128 text).
Proof.
  unfold encode_ascii_ignore, below_128.
  induction text as [|c text IH]; simpl; [reflexivity|].
  destruct (c <? 128)%N eqn:Hc; [|exact IH].
  apply N.ltb_lt in Hc.
  destruct (Byte.of_N c) as [b|] eqn:Hb.
  - apply Byte.to_of_N in Hb. simpl. rewrite Hb.
    apply N.ltb_lt in Hc. rewrite Hc, IH. reflexivity.
  - apply Byte.of_N_None_iff in Hb. lia.
Qed.

Lemma sanitize_text_filter (text : str) :
  sanitize_text text = Some (filter below_128 (NFKD text)).
Proof. apply decode_encode_ascii. Qed.

Lemma filter_is_ascii (s : str) : is_ascii (filter below_128 s).
Proof.
  apply Forall_forall. intros c Hin. apply filter_In in Hin.
  destruct Hin as [_ Hc]. now apply N.ltb_lt in Hc.
Qed.

Lemma filter_ascii_id (s : str) : is_ascii s -> filter below_128 s = s.
Proof.
  induction 1 as [|c s Hc _ IH]; simpl; [reflexivity|].
  apply N.ltb_lt in Hc. unfold below_128 at 1. now rewrite Hc, IH.
Qed.

Context {stable : AsciiStable ucd}.

Lemma canonical_order_ascii (s : str) : is_ascii s -> canonical_order s = s.
Proof.
  induction 1 as [|c s Hc Hs IH]; simpl; [reflexivity|].
  rewrite IH. destruct Hs as [|x s Hx Hs]; simpl; [reflexivity|].
  now rewrite (combining_ascii Hx).
Qed.

Lemma decompose_ascii (s : str) : is_ascii s -> flat_map decomposition s = s.
Proof.
  induction 1 as [|c s Hc _ IH]; simpl; [reflexivity|].
  now rewrite (decomposition_ascii Hc), IH.
Qed.

Lemma NFKD_ascii (s : str) : is_ascii s -> NFKD s = s.
Proof.
  intros Hs. unfold NFKD. rewrite (decompose_ascii Hs).
  now apply canonical_order_ascii.
Qed.

(** C10: on a string of ASCII characters, control characters included,
    [sanitize_text] returns the string unchanged. *)
Theorem sanitize_text_ascii (text : str) :
  is_ascii text -> sanitize_text text = Some text.
Proof.
  intros Hascii. rewrite sanitize_text_filter, (NFKD_ascii Hascii).
  now rewrite (filter_ascii_id Hascii).
Qed.

(** C9: [sanitize_text] returns a string on every input, and applying it
    to that string returns the same string again. *)
Theorem sanitize_text_idempotent (text : str) :
  exists once,
    sanitize_text text = Some once /\ sanitize_text once = sanitize_text text.
Proof.
  exists (filter below_128 (NFKD text)). split.
  - apply sanitize_text_filter.
  - rewrite (sanitize_text_filter text).
    rewrite sanitize_text_filter, (NFKD_ascii (filter_is_ascii _)).
    now rewrite (filter_ascii_id (filter_is_ascii _)).
Qed.

End NormalizerFacts.

(** The excerpt of the character database leaves the ASCII range alone. *)
Lemma ucd_excerpt_stable : AsciiStable Examples.ucd_excerpt.
Proof.
  constructor; intros c Hc; simpl.
  - destruct (N.eqb_spec c 233); [lia|].
    destruct (N.eqb_spec c 64257); [lia|].
    destruct (N.eqb_spec c 7785); [lia|].
    destruct (N.eqb_spec c 160); [lia|]. reflexivity.
  - destruct (N.eqb_spec c 769); [lia|].
    destruct (N.eqb_spec c 775); [lia|].
    destruct (N.eqb_spec c 803); [lia|]. reflexivity.
Qed.

Lemma sanitize_text_ascii_witness :
  sanitize_text (ucd := Examples.ucd_excerpt) [72; 105; 10; 9; 0; 127]%N
  = Some [72; 105; 10; 9; 0; 127]%N.
Proof.
  apply (sanitize_text_ascii (ucd := Examples.ucd_excerpt)
           (stable := ucd_excerpt_stable)).
  repeat constructor.
Defined.

Lemma sanitize_text_idempotent_witness :
  exists once,
    sanitize_text (ucd := Examples.ucd_excerpt)
      [233; 7785; 64257; 160; 10; 65; 8364]%N = Some once /\
    sanitize_text (ucd := Examples.ucd_excerpt) once
    = sanitize_text (ucd := Examples.ucd_excerpt)
        [233; 7785; 64257; 160; 10; 65; 8364]%N.
Proof.
  apply (sanitize_text_idempotent (ucd := Examples.ucd_excerpt)
           (stable := ucd_excerpt_stable)).
Defined.

(** On the excerpt: the accents and the euro sign are dropped, the
    ligature and the no-break space are replaced, and a second pass
    changes nothing. *)
Example sanitize_text_excerpt :
  sanitize_text (ucd := Examples.ucd_excerpt)
    [233; 7785; 64257; 160; 10; 65; 8364]%N
  = Some (lit "esfi" ++ [32; 10; 65]%N) /\
  sanitize_text (ucd := Examples.ucd_excerpt) (lit "esfi" ++ [32; 10; 65]%N)
  = Some (lit "esfi" ++ [32; 10; 65]%N).
Proof. split; vm_compute; reflexivity. Qed.

(* ===================================================================== *)
(** * Listing client: construction and endpoints, properties *)
(* ===================================================================== *)

Lemma str_eqb_eq (a b : str) : str_eqb a b = true <-> a = b.
Proof.
  unfold str_eqb. destruct (list_eq_dec N.eq_dec a b) as [Heq|Hne].
  - now split.
  - split; [discriminate | intros Heq; now contradiction Hne].
Qed.

Lemma arg_is_eq (a : arg) (s : str) : arg_is a s = true <-> a = ArgStr s.
Proof.
  destruct a as [|s'|z|b]; simpl; try (split; discriminate).
  rewrite str_eqb_eq. split; [now intros -> | now intros [= ->]].
Qed.

(** X1: a client exists exactly when the key given or the key of the
    environment is a non-empty string; the key it holds is never empty,
    and a non-empty key given wins over the environment. *)
Theorem init_requires_key (key env_key : option str) (url : str) :
  (OpenAustraliaAPI_init key env_key url = None <->
   opt_truthy key = false /\ opt_truthy env_key = false) /\
  (forall self,
     OpenAustraliaAPI_init key env_key url = Some self ->
     truthy (api_key self) = true /\ api_url self = url /\
     (opt_truthy key = true -> Some (api_key self) = key) /\
     (opt_truthy key = false -> Some (api_key self) = env_key)).
Proof.
  unfold OpenAustraliaAPI_init, opt_truthy.
  destruct key as [k|]; [destruct (truthy k) eqn:Hk|];
    try rewrite Hk;
    destruct env_key as [e|]; try destruct (truthy e) eqn:He;
    (split; [split; [try discriminate; intros _; now split
                    | intros [H1 H2]; try discriminate; reflexivity]
            | intros self [= <-]; simpl; repeat split;
              try assumption; try discriminate; reflexivity ]).
Qed.

Lemma init_requires_key_witness :
  truthy (api_key ClientExamples.client) = true /\
  api_url ClientExamples.client = lit "https://www.openaustralia.org.au/api" /\
  (opt_truthy (Some []) = true -> Some (api_key ClientExamples.client) = Some []) /\
  (opt_truthy (Some []) = false ->
   Some (api_key ClientExamples.client) = Some (lit "secret")).
Proof.
  apply (proj2 (init_requires_key (Some []) (Some (lit "secret"))
                  (lit "https://www.openaustralia.org.au/api"))).
  reflexivity.
Defined.

Section EndpointFacts.
Context {server : ApiServer}.

(** X2: [get_debates] asks the API only for one of the two chambers.  For
    any other [type], missing or not, it returns [None] and makes no
    request; for a chamber it makes exactly one request, to [getDebates],
    that carries the chamber and the credentials. *)
Theorem get_debates_validates (self : OpenAustraliaAPI)
    (type date search person_id gid year order page num : arg)
    (log : api_log) :
  (type <> ArgStr (lit "representatives") -> type <> ArgStr (lit "senate") ->
   get_debates self type date search person_id gid year order page num log
   = (JNull, log)) /\
  (type = ArgStr (lit "representatives") \/ type = ArgStr (lit "senate") ->
   exists request,
     snd (get_debates self type date search person_id gid year order page
            num log) = log ++ [request] /\
     endpoint request = api_url self ++ lit "/getDebates" /\
     params_get (lit "type") (params request) = Some type /\
     carries_credentials self request /\
     fst (get_debates self type date search person_id gid year order page
            num log)
     = list_or_none (_make_call (api_exchange log request))).
Proof.
  split.
  - intros Hrep Hsen. unfold get_debates.
    destruct (arg_truthy type); [|reflexivity]. simpl.
    destruct (arg_is type (lit "representatives")) eqn:H1.
    + apply arg_is_eq in H1. now contradiction Hrep.
    + destruct (arg_is type (lit "senate")) eqn:H2; [|reflexivity].
      apply arg_is_eq in H2. now contradiction Hsen.
  - intros [-> | ->]; eexists; repeat split.
Qed.

(** X3: [get_representative] refuses [id] and [division] given together
    before any request; in every other case it makes exactly one request,
    to [getRepresentative], with the credentials. *)
Theorem get_representative_validates (self : OpenAustraliaAPI)
    (id division always_return : arg) (log : api_log) :
  (arg_truthy id = true -> arg_truthy division = true ->
   get_representative self id division always_return log = (JNull, log)) /\
  (arg_truthy id = false \/ arg_truthy division = false ->
   exists request,
     snd (get_representative self id division always_return log)
     = log ++ [request] /\
     endpoint request = api_url self ++ lit "/getRepresentative" /\
     params_get (lit "id") (params request) = Some id /\
     params_get (lit "division") (params request) = Some division /\
     carries_credentials self request).
Proof.
  unfold get_representative. split.
  - intros -> ->. reflexivity.
  - intros Hone.
    assert (arg_truthy id && arg_truthy division = false) as ->
      by (destruct Hone as [-> | ->]; [reflexivity | apply andb_false_r]).
    eexists. repeat split.
Qed.

(** X4: [get_senator] sends a [person_id] that is given as the [id] of
    the request, in place of the [id] argument; without one it sends
    [id]. *)
Theorem get_senator_sends_id (self : OpenAustraliaAPI) (id person_id : arg)
    (log : api_log) :
  exists request,
    snd (get_senator self id person_id log) = log ++ [request] /\
    endpoint request = api_url self ++ lit "/getSenator" /\
    params_get (lit "id") (params request)
    = Some (if arg_truthy person_id then person_id else id) /\
    params_get (lit "person_id") (params request) = None /\
    carries_credentials self request.
Proof. unfold get_senator. eexists. repeat split. Qed.

End EndpointFacts.

(** What [_make_call] returns is never an object with an ['error'] key,
    and it is [None] after an exchange that failed. *)
Lemma make_call_no_error (reply : api_reply) :
  (reply_failed reply = true -> _make_call reply = JNull) /\
  (forall d, _make_call reply = JObject d -> dict_get (lit "error") d = None).
Proof.
  destruct reply as [| status | | data]; simpl; try (split; [reflexivity | discriminate]).
  destruct data as [| b | z | s | items | d]; simpl;
    try (split; [discriminate | discriminate]).
  destruct (dict_get (lit "error") d) eqn:Herr.
  - split; [reflexivity | discriminate].
  - split; [discriminate | now intros d' [= <-]].
Qed.

Section EndpointResults.
Context {server : ApiServer}.

(** X5: an exchange that failed, or a reply that carries an ['error']
    key, gives [None] at every endpoint; in particular [get_hansard] and
    [get_comments] do not unwrap the [rows] or [comments] of a reply that
    also carries an error. *)
Theorem failed_reply_gives_none (reply : api_reply) :
  reply_failed reply = true ->
  list_or_none (_make_call reply) = JNull /\
  dict_or_none (_make_call reply) = JNull /\
  get_hansard (_make_call reply) = JNull /\
  comments_of (_make_call reply) = JNull.
Proof.
  intros Hfailed.
  rewrite (proj1 (make_call_no_error reply) Hfailed). now repeat split.
Qed.

(** X6: the endpoints that list return [None] or an array, and the
    endpoints that look one member up return [None] or an object without
    ['error'] key, whatever the API answers. *)
Theorem endpoint_result_shapes (self : OpenAustraliaAPI)
    (a1 a2 a3 a4 a5 a6 a7 a8 a9 : arg) (log : api_log) :
  let is_list (data : json) := data = JNull \/ exists items, data = JArray items in
  let is_member (data : json) :=
    data = JNull \/
    exists d, data = JObject d /\ dict_get (lit "error") d = None in
  is_list (fst (get_senators self a1 a2 a3 a4 a5 a6 log)) /\
  is_list (fst (get_representatives self a1 a2 a3 a4 a5 a6 log)) /\
  is_list (fst (get_debates self a1 a2 a3 a4 a5 a6 a7 a8 a9 log)) /\
  is_list (fst (get_divisions self a1 a2 a3 a4 a5 log)) /\
  is_member (fst (get_senator self a1 a2 log)) /\
  is_member (fst (get_representative self a1 a2 a3 log)).
Proof.
  assert (forall data, list_or_none data = JNull \/
                       exists items, list_or_none data = JArray items)
    as Hlist.
  { intros data. destruct data; simpl; try (now left). right. now eexists. }
  assert (forall reply,
            dict_or_none (_make_call reply) = JNull \/
            exists d, dict_or_none (_make_call reply) = JObject d /\
                      dict_get (lit "error") d = None) as Hmember.
  { intros reply. destruct (_make_call reply) as [| | | | |d] eqn:Hdata;
      simpl; try (now left).
    right. exists d. split; [reflexivity|].
    now apply (proj2 (make_call_no_error reply)). }
  simpl. repeat split.
  - apply Hlist.
  - apply Hlist.
  - unfold get_debates. destruct (negb (arg_truthy a1)); [now left|].
    destruct (negb _); [now left|]. apply Hlist.
  - apply Hlist.
  - apply Hmember.
  - unfold get_representative.
    destruct (arg_truthy a1 && arg_truthy a2); [now left|]. apply Hmember.
Qed.

End EndpointResults.

Lemma failed_reply_gives_none_witness :
  list_or_none (_make_call (ApiJson ClientExamples.error_reply)) = JNull /\
  dict_or_none (_make_call (ApiJson ClientExamples.error_reply)) = JNull /\
  get_hansard (_make_call (ApiJson ClientExamples.error_reply)) = JNull /\
  comments_of (_make_call (ApiJson ClientExamples.error_reply)) = JNull.
Proof.
  apply (failed_reply_gives_none (ApiJson ClientExamples.error_reply)).
  reflexivity.
Defined.

Lemma get_debates_validates_witness :
  get_debates (server := ClientExamples.api) ClientExamples.client
    (ArgStr (lit "lords")) ArgNone ArgNone ArgNone ArgNone ArgNone ArgNone
    ArgNone ArgNone [] = (JNull, []) /\
  exists request,
    snd (get_debates (server := ClientExamples.api) ClientExamples.client
           (ArgStr (lit "senate")) ArgNone ArgNone ArgNone ArgNone ArgNone
           ArgNone ArgNone ArgNone []) = [] ++ [request] /\
    endpoint request = api_url ClientExamples.client ++ lit "/getDebates" /\
    params_get (lit "type") (params request) = Some (ArgStr (lit "senate")) /\
    carries_credentials ClientExamples.client request /\
    fst (get_debates (server := ClientExamples.api) ClientExamples.client
           (ArgStr (lit "senate")) ArgNone ArgNone ArgNone ArgNone ArgNone
           ArgNone ArgNone ArgNone [])
    = list_or_none (_make_call (api_exchange (ApiServer := ClientExamples.api) [] request)).
Proof.
  split.
  - apply (proj1 (get_debates_validates (server := ClientExamples.api)
                    ClientExamples.client (ArgStr (lit "lords")) ArgNone
                    ArgNone ArgNone ArgNone ArgNone ArgNone ArgNone ArgNone
                    [])); discriminate.
  - apply (proj2 (get_debates_validates (server := ClientExamples.api)
                    ClientExamples.client (ArgStr (lit "senate")) ArgNone
                    ArgNone ArgNone ArgNone ArgNone ArgNone ArgNone ArgNone
                    [])).
    right. reflexivity.
Defined.

Lemma get_representative_validates_witness :
  get_representative (server := ClientExamples.api) ClientExamples.client
    (ArgStr (lit "10001")) (ArgStr (lit "Sydney")) ArgNone []
  = (JNull, []).
Proof.
  apply (proj1 (get_representative_validates (server := ClientExamples.api)
                  ClientExamples.client (ArgStr (lit "10001"))
                  (ArgStr (lit "Sydney")) ArgNone [])); reflexivity.
Defined.

(* ===================================================================== *)
(** * Date-range filter: further properties *)
(* ===================================================================== *)

Section DateRangeMore.
Context {dates : DateLib}.

(** A comprehension that did not raise kept the entries in range, and
    every date parsed. *)
Lemma filter_by_date_some (d1 d2 : datetime) (records kept : list Entry) :
  filter_by_date d1 d2 records = Some kept ->
  kept = filter (in_range d1 d2) records /\
  Forall (fun entry => entry_date entry <> None) records.
Proof.
  revert kept. induction records as [|entry records IH]; intros kept; simpl.
  - intros [= <-]. now split.
  - unfold in_range at 1.
    destruct (entry_date entry) as [d|] eqn:Hd; [|discriminate].
    destruct (filter_by_date d1 d2 records) as [kept'|]; [|discriminate].
    destruct (IH kept' eq_refl) as [-> Hall].
    assert (entry_date entry <> None) as Hentry by (rewrite Hd; discriminate).
    destruct (datetime_leb d1 d && datetime_leb d d2);
      intros [= <-]; split; try reflexivity; now constructor.
Qed.

Lemma in_range_dates (d1 d2 : datetime) (entry : Entry) :
  in_range d1 d2 entry = true ->
  exists d, entry_date entry = Some d /\
            datetime_leb d1 d = true /\ datetime_leb d d2 = true.
Proof.
  unfold in_range. destruct (entry_date entry) as [d|]; [|discriminate].
  intros H. apply andb_true_iff in H. now exists d.
Qed.

(** The filter gives the empty list or the entries in range. *)
Lemma date_range_cases (start_date end_date : str)
    (hansard_data : option (list Entry)) :
  get_hansard_by_date_range start_date end_date hansard_data = [] \/
  exists d1 d2 records,
    strptime start_date = Some d1 /\ strptime end_date = Some d2 /\
    hansard_data = Some records /\
    Forall (fun entry => entry_date entry <> None) records /\
    get_hansard_by_date_range start_date end_date hansard_data
    = filter (in_range d1 d2) records.
Proof.
  unfold get_hansard_by_date_range.
  destruct (strptime start_date) as [d1|]; [|now left].
  destruct (strptime end_date) as [d2|]; [|now left].
  destruct hansard_data as [records|]; [|now left].
  destruct records as [|entry records]; [now left|].
  destruct (filter_by_date d1 d2 (entry :: records)) as [kept|] eqn:Hkept;
    [|now left].
  destruct (filter_by_date_some _ _ _ Hkept) as [-> Hall].
  right. now exists d1, d2, (entry :: records).
Qed.

(** An entry of the result was given, and its date parses and lies
    between the bounds. *)
Lemma date_range_member (start_date end_date : str)
    (hansard_data : option (list Entry)) (entry : Entry) :
  In entry (get_hansard_by_date_range start_date end_date hansard_data) ->
  In entry (get_default hansard_data []) /\
  exists d1 d2 d,
    strptime start_date = Some d1 /\ strptime end_date = Some d2 /\
    entry_date entry = Some d /\
    datetime_leb d1 d = true /\ datetime_leb d d2 = true.
Proof.
  intros Hin.
  destruct (date_range_cases start_date end_date hansard_data)
    as [Hnil | (d1 & d2 & records & Hs & He & -> & _ & Hres)].
  - rewrite Hnil in Hin. contradiction.
  - rewrite Hres in Hin. apply filter_In in Hin. destruct Hin as [Hgiven Hin].
    split; [exact Hgiven|].
    destruct (in_range_dates _ _ _ Hin) as (d & Hd & Hlo & Hhi).
    now exists d1, d2, d.
Qed.

(** X7: whatever the input, the result of [get_hansard_by_date_range] is
    a selection of the entries it was given, in their order, and every
    entry in it has a date that parses and lies between the two bounds,
    which parse as well; with a bound that does not parse the result is
    empty. *)
Theorem date_range_result_sound (start_date end_date : str)
    (hansard_data : option (list Entry)) :
  (exists keep,
     get_hansard_by_date_range start_date end_date hansard_data
     = filter keep (get_default hansard_data [])) /\
  (forall entry,
     In entry (get_hansard_by_date_range start_date end_date hansard_data) ->
     exists d1 d2 d,
       strptime start_date = Some d1 /\ strptime end_date = Some d2 /\
       entry_date entry = Some d /\
       datetime_leb d1 d = true /\ datetime_leb d d2 = true) /\
  (strptime start_date = None \/ strptime end_date = None ->
   get_hansard_by_date_range start_date end_date hansard_data = []).
Proof.
  split; [|split].
  - destruct (date_range_cases start_date end_date hansard_data)
      as [-> | (d1 & d2 & records & _ & _ & -> & _ & ->)].
    + exists (fun _ => false).
      induction (get_default hansard_data []) as [|e l IH]; [reflexivity|].
      exact IH.
    + now exists (in_range d1 d2).
  - intros entry Hin. now apply (date_range_member _ _ _ _ Hin).
  - unfold get_hansard_by_date_range. intros [-> | ->]; [reflexivity|].
    now destruct (strptime start_date).
Qed.

Lemma filter_twice (A : Type) (f : A -> bool) (l : list A) :
  filter f (filter f l) = filter f l.
Proof.
  induction l as [|x l IH]; simpl; [reflexivity|].
  destruct (f x) eqn:Hx; simpl; [now rewrite Hx, IH | exact IH].
Qed.

(** X8: filtering the result again with the same bounds changes
    nothing. *)
Theorem date_range_idempotent (start_date end_date : str)
    (hansard_data : option (list Entry)) :
  get_hansard_by_date_range start_date end_date
    (Some (get_hansard_by_date_range start_date end_date hansard_data))
  = get_hansard_by_date_range start_date end_date hansard_data.
Proof.
  destruct (date_range_cases start_date end_date hansard_data)
    as [-> | (d1 & d2 & records & Hs & He & _ & _ & ->)].
  - unfold get_hansard_by_date_range.
    destruct (strptime start_date); [|reflexivity].
    now destruct (strptime end_date).
  - unfold get_hansard_by_date_range. rewrite Hs, He.
    destruct (filter (in_range d1 d2) records) as [|entry kept] eqn:Hkept;
      [reflexivity|].
    rewrite <- Hkept. rewrite filter_by_date_all_parse.
    + now rewrite filter_twice.
    + apply Forall_forall. intros e Hin. apply filter_In in Hin.
      destruct Hin as [_ Hin].
      destruct (in_range_dates _ _ _ Hin) as (d & Hd & _). rewrite Hd.
      discriminate.
Qed.

End DateRangeMore.

(* ===================================================================== *)
(** * Export loop: further properties *)
(* ===================================================================== *)

Module PyStrMore.

Lemma before_first_prefix (sep : codepoint) (s : str) :
  exists rest, s = before_first sep s ++ rest.
Proof.
  induction s as [|c s [rest IH]]; simpl.
  - now exists [].
  - destruct (N.eqb c sep).
    + now exists (c :: s).
    + exists rest. simpl. now rewrite <- IH.
Qed.

Lemma before_first_free (sep : codepoint) (s : str) :
  ~ In sep (before_first sep s).
Proof.
  induction s as [|c s IH]; simpl; [tauto|].
  destruct (N.eqb_spec c sep) as [Heq|Hne]; simpl; [tauto|].
  intros [Hc | Hin]; [now contradiction Hne | now contradiction IH].
Qed.

Lemma before_first_keeps_http (s : str) :
  startswith s (lit "http") = true ->
  startswith (before_first HASH s) (lit "http") = true.
Proof.
  intros Hs. apply startswith_prefix in Hs. destruct Hs as [rest ->].
  apply startswith_prefix. exists (before_first HASH rest). reflexivity.
Qed.


Lemma split_run_words (cur s : str) :
  Forall (fun c => isspace c = false) cur ->
  Forall is_word (split_run cur s).
Proof.
  revert cur. induction s as [|c s IH]; intros cur Hcur; simpl.
  - destruct cur as [|x cur]; constructor; [|constructor].
    rewrite reversed_rev. split.
    + intros Hnil. apply (f_equal (@List.length _)) in Hnil.
      rewrite length_rev in Hnil. discriminate.
    + now apply Forall_rev.
  - destruct (isspace c) eqn:Hc.
    + destruct cur as [|x cur]; [now apply IH|].
      constructor; [|now apply IH].
      rewrite reversed_rev. split.
      * intros Hnil. apply (f_equal (@List.length _)) in Hnil.
        rewrite length_rev in Hnil. discriminate.
      * now apply Forall_rev.
    + apply IH. now constructor.
Qed.

(** Reading a word moves it, reversed, to the run being read. *)
Lemma split_run_word (w cur rest : str) :
  Forall (fun c => isspace c = false) w ->
  split_run cur (w ++ rest) = split_run (rev w ++ cur) rest.
Proof.
  intros Hw. revert cur. induction Hw as [|c w Hc _ IH]; intros cur; simpl.
  - reflexivity.
  - rewrite Hc, IH, <- app_assoc. reflexivity.
Qed.

(** Splitting words joined by single spaces gives the words back. *)
Lemma split_join (ws : list str) :
  Forall is_word ws -> split (join SPACE ws) = ws.
Proof.
  unfold split. induction 1 as [|w ws [Hne Hw] Hws IH]; [reflexivity|].
  assert (exists x cur, rev w = x :: cur) as (x & cur & Hrev).
  { destruct (rev w) as [|x cur] eqn:Hrev; [|now exists x, cur].
    apply (f_equal (@List.length _)) in Hrev. rewrite length_rev in Hrev.
    destruct w; [now contradiction Hne | discriminate]. }
  assert (reversed (x :: cur) = w) as Hback
    by (rewrite <- Hrev, reversed_rev; apply rev_involutive).
  destruct ws as [|w' ws].
  - simpl. rewrite <- (app_nil_r w) at 1.
    rewrite (split_run_word [] [] Hw), app_nil_r, Hrev. simpl.
    now rewrite Hback.
  - change (join SPACE (w :: w' :: ws))
      with (w ++ 32%N :: join SPACE (w' :: ws)).
    rewrite (split_run_word [] _ Hw), app_nil_r, Hrev.
    cbn [split_run]. change (isspace 32%N) with true. cbn iota.
    now rewrite Hback, IH.
Qed.

(** Collapsing white space twice is collapsing it once. *)
Lemma collapse_idempotent (text : str) :
  collapse (collapse text) = collapse text.
Proof.
  unfold collapse. rewrite split_join; [reflexivity|].
  apply split_run_words. constructor.
Qed.

End PyStrMore.

Import PyStrMore.

Section PipelineMore.
Context {net : Network} {urls : UrlLib} {html : HtmlLib} {dates : DateLib}.



(** Each row of the loop is the row of the entry at its place. *)
Lemma speeches_loop_rows (entries : list Entry) (h : history) :
  Forall2 (fun entry row => exists h0, row = fst (export_row entry h0))
    entries (fst (speeches_loop entries h)).
Proof.
  revert h. induction entries as [|entry rest IH]; intros h.
  - constructor.
  - rewrite speeches_loop_cons. simpl. constructor; [now exists h|apply IH].
Qed.

Lemma Forall2_in_right (A B : Type) (R : A -> B -> Prop)
    (l : list A) (l' : list B) (y : B) :
  Forall2 R l l' -> In y l' -> exists x, In x l /\ R x y.
Proof.
  induction 1 as [|a b l l' Hab _ IH]; simpl; [contradiction|].
  intros [<- | Hin].
  - exists a. now split; [left|].
  - destruct (IH Hin) as (x & Hx & Hxy). exists x. now split; [right|].
Qed.

(** X10: the page a fetch asks for has no fragment.  For an entry whose
    unescaped locator is absolute, the URL column is that locator as it
    is, fragment included, and the page requested is its part before the
    first [#]; an entry without detail URL has the placeholder. *)
Theorem url_column_and_request (entry : Entry) (h : history) :
  (forall u,
     detail_url entry = Some u ->
     startswith (unescape u) (lit "http") = true ->
     URL (fst (export_row entry h)) = unescape u /\
     requested_url u = before_first HASH (unescape u) /\
     (exists fragment,
        URL (fst (export_row entry h)) = requested_url u ++ fragment) /\
     ~ In HASH (requested_url u)) /\
  (detail_url entry = None -> URL (fst (export_row entry h)) = NO_URL).
Proof.
  split.
  - intros u Hurl Habs.
    assert (URL (fst (export_row entry h)) = unescape u) as Hcol.
    { unfold export_row. rewrite Hurl. unfold absolute_url. rewrite Habs.
      destruct (is_truncated (entry_body entry)); [|reflexivity].
      now destruct (fetch_full_speech u h). }
    assert (requested_url u = before_first HASH (unescape u)) as Hreq.
    { unfold requested_url, absolute_url.
      now rewrite (before_first_keeps_http _ Habs). }
    rewrite Hcol, Hreq. repeat split.
    + apply before_first_prefix.
    + apply before_first_free.
  - intros Hnone. unfold export_row. rewrite Hnone.
    now destruct (is_truncated (entry_body entry)).
Qed.

(** X11: [export_speeches_to_csv] writes nothing, and fetches nothing,
    without a key or when the client returned no entry in the range; when
    it writes, the sheet has at least one row, and as many rows as entries
    in the range. *)
Theorem export_writes_rows_or_nothing (key : option str)
    (hansard_data : option (list Entry)) (h : history) :
  (opt_truthy key = false ->
   export_speeches_to_csv key hansard_data h = (None, h)) /\
  (fst (export_speeches_to_csv key hansard_data h) = None ->
   snd (export_speeches_to_csv key hansard_data h) = h) /\
  (forall speeches,
     fst (export_speeches_to_csv key hansard_data h) = Some speeches ->
     speeches <> [] /\
     List.length speeches
     = List.length (get_hansard_by_date_range (lit "2023-12-05")
                      (lit "2024-12-05") hansard_data)).
Proof.
  unfold export_speeches_to_csv, opt_truthy.
  destruct key as [k|]; [|repeat split; discriminate].
  destruct (truthy k); [|repeat split; discriminate].
  destruct (get_hansard_by_date_range _ _ hansard_data) as [|entry rest];
    [repeat split; discriminate|].
  pose proof (speeches_loop_rows (entry :: rest) h) as Hrows.
  destruct (speeches_loop (entry :: rest) h) as [speeches h'].
  simpl in *. split; [discriminate|]. split; [discriminate|].
  intros speeches' [= <-].
  pose proof (Forall2_length Hrows) as Hlen. simpl in Hlen.
  split; [|now rewrite <- Hlen].
  intros ->. discriminate.
Qed.

(** X12: every row [export_speeches_to_csv] writes comes from an entry of
    the listing whose date parses and lies between 2023-12-05 and
    2024-12-05, both included. *)
Theorem exported_rows_in_window (key : option str)
    (hansard_data : option (list Entry)) (h : history) (row : Row) :
  In row (rows_written (export_speeches_to_csv key hansard_data h)) ->
  exists entry d1 d2 d,
    In entry (get_default hansard_data []) /\
    Hansard_ID row = gid entry /\ Date row = hdate entry /\
    strptime (lit "2023-12-05") = Some d1 /\
    strptime (lit "2024-12-05") = Some d2 /\
    entry_date entry = Some d /\
    datetime_leb d1 d = true /\ datetime_leb d d2 = true.
Proof.
  unfold rows_written, export_speeches_to_csv.
  destruct key as [k|]; [|contradiction].
  destruct (truthy k); [|contradiction].
  destruct (get_hansard_by_date_range _ _ hansard_data) as [|e rest] eqn:Hres;
    [contradiction|].
  pose proof (speeches_loop_rows (e :: rest) h) as Hrows.
  destruct (speeches_loop (e :: rest) h) as [speeches h']. simpl in *.
  intros Hin.
  destruct (@Forall2_in_right _ _ _ _ _ row Hrows Hin)
    as (entry & Hentry & h0 & ->).
  rewrite <- Hres in Hentry.
  destruct (date_range_member _ _ _ _ Hentry)
    as (Hgiven & d1 & d2 & d & H1 & H2 & Hd & Hlo & Hhi).
  destruct (export_row_copies entry h0) as [Hid Hdate].
  exists entry, d1, d2, d. now repeat split.
Qed.

(** X13: the text [fetch_full_speech] returns is always collapsed: words
    separated by single spaces, with no other white space and none at
    either end.  This holds for the sentinel as well. *)
Theorem fetch_full_speech_collapsed (url : str) (h : history) :
  collapse (fst (fetch_full_speech url h)) = fst (fetch_full_speech url h) /\
  exists words,
    Forall is_word words /\
    fst (fetch_full_speech url h) = join SPACE words.
Proof.
  assert (collapse (fst (fetch_full_speech url h))
          = fst (fetch_full_speech url h)) as Hfix.
  { run_fetch.
    destruct (http_get h _) as [e|response]; [reflexivity|].
    destruct (raise_for_status response); [reflexivity|].
    destruct (BeautifulSoup (content response)) as [e|page]; [reflexivity|].
    apply collapse_idempotent. }
  split; [exact Hfix|].
  exists (split (fst (fetch_full_speech url h))). split.
  - apply split_run_words. constructor.
  - symmetry. exact Hfix.
Qed.

End PipelineMore.

(* ===================================================================== *)
(** * Text normaliser and exports to PDF: further properties *)
(* ===================================================================== *)

Section SanitizeMore.
Context {ucd : UnicodeData}.

Lemma len_filter (f : codepoint -> bool) (s : str) :
  (len (filter f s) <= len s)%Z.
Proof.
  unfold len. induction s as [|c s IH]; simpl; [lia|].
  destruct (f c); simpl; lia.
Qed.

(** X14: whatever the character tables say, [sanitize_text] does not
    raise, every character of its result is ASCII, and the result is no
    longer than the decomposed text. *)
Theorem sanitize_text_total_ascii (text : str) :
  exists clean,
    sanitize_text text = Some clean /\
    is_ascii clean /\
    (len clean <= len (NFKD text))%Z.
Proof.
  exists (filter below_128 (NFKD text)). split; [|split].
  - apply sanitize_text_filter.
  - apply filter_is_ascii.
  - apply len_filter.
Qed.

Lemma is_ascii_app (a b : str) : is_ascii a -> is_ascii b -> is_ascii (a ++ b).
Proof. intros Ha Hb. apply Forall_app. now split. Qed.

End SanitizeMore.

(** A literal followed by sanitised text is ASCII. *)
Ltac ascii_line :=
  unfold is_ascii;
  repeat (apply Forall_cons; [reflexivity|]);
  first [ apply filter_is_ascii
        | apply is_ascii_app; [repeat constructor | apply filter_is_ascii] ].

Section PdfExportFacts.
Context {net : Network} {urls : UrlLib} {html : HtmlLib} {ucd : UnicodeData}.




End PdfExportFacts.

Section ExcelToPdfFacts.
Context {ucd : UnicodeData}.
Variable cell : Type.
Variable py_str : cell -> str.

(** The loop of [clean.py] never raises and keeps, in order, the rows
    whose sanitised text is not blank. *)
Lemma pages_of_kept (rows : list (list (str * cell))) :
  exists pages,
    pages_of py_str rows = Some pages /\
    List.map page_speech pages
    = filter (fun text => truthy (strip text))
        (List.map
           (fun row => filter below_128 (NFKD (row_text py_str (lit "Speech") [] row)))
           rows) /\
    Forall (fun page => is_ascii (page_date page) /\
                        is_ascii (page_speech page)) pages.
Proof.
  induction rows as [|row rest (pages & Hpages & Hmap & Hall)].
  - exists []. repeat split. constructor.
  - simpl. rewrite !sanitize_text_filter, Hpages.
    destruct (truthy (strip (filter below_128
                               (NFKD (row_text py_str (lit "Speech") [] row)))))
      eqn:Hblank.
    + eexists. split; [reflexivity|]. simpl. rewrite Hmap. split; [reflexivity|].
      constructor; [|exact Hall]. simpl. split.
      * ascii_line.
      * apply filter_is_ascii.
    + exists pages. now repeat split.
Qed.

(** X16: [export_speeches_from_excel_to_pdf] writes nothing when the
    sheet cannot be read or lacks one of the columns Date, Speaker and
    Speech, and its loop is never stopped by an exception of
    [sanitize_text].  The pages handed to the PDF writer are, in the order
    of the sheet, the rows whose sanitised text is not blank: a row whose
    text is blank after sanitising has no page, and there are at most as
    many pages as rows; dates and texts are ASCII. *)
Theorem excel_pages (df : option (DataFrame cell)) :
  export_speeches_from_excel_to_pdf py_str df <> Raised /\
  (df = None -> export_speeches_from_excel_to_pdf py_str df = NothingWritten) /\
  (forall frame col,
     df = Some frame -> In col required_columns ->
     has_column frame col = false ->
     export_speeches_from_excel_to_pdf py_str df = NothingWritten) /\
  (forall frame pages,
     df = Some frame ->
     export_speeches_from_excel_to_pdf py_str df = Written pages ->
     List.map page_speech pages
     = filter (fun text => truthy (strip text))
         (List.map
            (fun row =>
               filter below_128 (NFKD (row_text py_str (lit "Speech") [] row)))
            (df_rows frame)) /\
     (List.length pages <= List.length (df_rows frame))%nat /\
     Forall (fun page => is_ascii (page_date page) /\
                         is_ascii (page_speech page) /\
                         strip (page_speech page) <> []) pages).
Proof.
  unfold export_speeches_from_excel_to_pdf.
  destruct df as [frame|]; [|repeat split; discriminate].
  destruct (pages_of_kept (df_rows frame)) as (pages & Hpages & Hmap & Hall).
  rewrite Hpages. split; [|split; [|split]].
  - destruct (forallb _ _); discriminate.
  - discriminate.
  - intros frame' col [= <-] Hcol Hmissing.
    destruct (forallb (has_column frame) required_columns) eqn:Hall';
      [|reflexivity].
    rewrite forallb_forall in Hall'. rewrite (Hall' col Hcol) in Hmissing.
    discriminate.
  - intros frame' pages' [= <-].
    destruct (forallb _ _); [|discriminate]. intros [= <-].
    split; [exact Hmap|]. split.
    + rewrite <- (length_map page_speech), Hmap.
      etransitivity; [apply filter_length_le|]. now rewrite length_map.
    + apply Forall_forall. intros page Hin.
      rewrite Forall_forall in Hall. destruct (Hall page Hin) as [Hd Hs].
      repeat split; try assumption.
      assert (In (page_speech page) (List.map page_speech pages)) as Hin'
        by now apply in_map.
      rewrite Hmap in Hin'. apply filter_In in Hin'. destruct Hin' as [_ Ht].
      intros Hnil. rewrite Hnil in Ht. discriminate.
Qed.

End ExcelToPdfFacts.

(* ===================================================================== *)
(** * The further properties on the examples *)
(* ===================================================================== *)

Lemma date_range_result_sound_witness :
  get_hansard_by_date_range (dates := Examples.ascii_dates)
    (lit "5 December 2023") (lit "2024-12-05")
    (Some [Examples.truncated_entry]) = [].
Proof.
  apply (proj2 (proj2 (date_range_result_sound
                         (dates := Examples.ascii_dates)
                         (lit "5 December 2023") (lit "2024-12-05")
                         (Some [Examples.truncated_entry])))).
  left. reflexivity.
Defined.

Lemma url_column_and_request_witness :
  URL (fst (export_row (net := Examples.web) (urls := Examples.path_urls)
              (html := Examples.text_pages) ClientExamples.absolute_entry []))
  = lit "https://www.openaustralia.org.au/debates/?id=gone#g3.2" /\
  requested_url (urls := Examples.path_urls)
    (lit "https://www.openaustralia.org.au/debates/?id=gone#g3.2")
  = Examples.gone_url.
Proof.
  destruct (proj1 (url_column_and_request (net := Examples.web)
                     (urls := Examples.path_urls)
                     (html := Examples.text_pages)
                     ClientExamples.absolute_entry [])
              (lit "https://www.openaustralia.org.au/debates/?id=gone#g3.2")
              eq_refl eq_refl) as (Hcol & Hreq & _).
  split; [exact Hcol | exact Hreq].
Defined.

Lemma export_writes_rows_or_nothing_witness :
  export_speeches_to_csv (net := Examples.web) (urls := Examples.path_urls)
    (html := Examples.text_pages) (dates := Examples.ascii_dates)
    (Some []) (Some [Examples.truncated_entry]) []
  = (None, []).
Proof.
  apply (proj1 (export_writes_rows_or_nothing (net := Examples.web)
                  (urls := Examples.path_urls) (html := Examples.text_pages)
                  (dates := Examples.ascii_dates)
                  (Some []) (Some [Examples.truncated_entry]) [])).
  reflexivity.
Defined.

Lemma exported_rows_in_window_witness :
  exists entry d1 d2 d,
    In entry (get_default (Some [Examples.dateless_entry;
                                 Examples.truncated_entry]) []) /\
    Hansard_ID (fst (export_row (net := Examples.web)
                       (urls := Examples.path_urls)
                       (html := Examples.text_pages)
                       Examples.truncated_entry []))
    = gid entry /\
    Date (fst (export_row (net := Examples.web) (urls := Examples.path_urls)
                 (html := Examples.text_pages) Examples.truncated_entry []))
    = hdate entry /\
    strptime (DateLib := Examples.ascii_dates) (lit "2023-12-05") = Some d1 /\
    strptime (DateLib := Examples.ascii_dates) (lit "2024-12-05") = Some d2 /\
    entry_date (dates := Examples.ascii_dates) entry = Some d /\
    datetime_leb d1 d = true /\ datetime_leb d d2 = true.
Proof.
  apply (exported_rows_in_window (net := Examples.web)
           (urls := Examples.path_urls) (html := Examples.text_pages)
           (dates := Examples.ascii_dates) (Some (lit "key"))
           (Some [Examples.dateless_entry; Examples.truncated_entry]) []).
  vm_compute. left. reflexivity.
Defined.


(** The two blocks of that export. *)
Example pdf_of_two_entries :
  List.map (fun block => speech_line block)
    (items_written
       (fst (export_speeches_to_pdf (net := Examples.web)
               (urls := Examples.path_urls) (html := Examples.text_pages)
               (ucd := Examples.ucd_excerpt) (Some (lit "key"))
               (Some [Examples.truncated_entry; Examples.gone_entry]) [])))
  = [lit "Speech: Full remarks on the budget bill.";
     lit "Speech: Unable to retrieve full speech."].
Proof. vm_compute. reflexivity. Qed.

Lemma excel_pages_witness :
  List.map page_speech ClientExamples.sheet_pages
  = filter (fun text => truthy (strip text))
      (List.map
         (fun row =>
            filter below_128
              (NFKD (ucd := Examples.ucd_excerpt)
                 (row_text (fun text : str => text) (lit "Speech") [] row)))
         (df_rows ClientExamples.sheet)) /\
  (List.length ClientExamples.sheet_pages
   <= List.length (df_rows ClientExamples.sheet))%nat /\
  Forall (fun page => is_ascii (page_date page) /\
                      is_ascii (page_speech page) /\
                      strip (page_speech page) <> [])
    ClientExamples.sheet_pages.
Proof.
  apply (proj2 (proj2 (proj2
           (excel_pages (ucd := Examples.ucd_excerpt)
              (fun text : str => text) (Some ClientExamples.sheet))))
           ClientExamples.sheet).
  - reflexivity.
  - vm_compute. reflexivity.
Defined.

(** The sheet of three rows gives two pages: the row without text has
    none, and the accents of the third are dropped. *)
Example sheet_gives_two_pages :
  List.map page_speech ClientExamples.sheet_pages
  = [lit "First remarks."; lit "ete"].
Proof. vm_compute. reflexivity. Qed.

(* ===================================================================== *)
(** * The two fetchers, and listings that need no fetch *)
(* ===================================================================== *)

Section FetchersCompared.
Context {net : Network} {urls : UrlLib} {html : HtmlLib}.

(** A container found by the four selectors of [speechGather.py] is the
    one the six selectors of [test.py] find. *)
Lemma first_match_of_four (page : soup) (d : tag) :
  or_else (find page (div_class "speech"))
    (or_else (find page (div_class "speech_text"))
       (or_else (find page (div_id "speech"))
          (find page (div_class "debate-body")))) = Some d ->
  TestPy.first_match page TestPy.possible_selectors = Some d.
Proof.
  unfold TestPy.possible_selectors. simpl.
  destruct (find page (div_class "speech")); [now intros [= ->]|].
  destruct (find page (div_class "speech_text")); [now intros [= ->]|].
  destruct (find page (div_id "speech")); [now intros [= ->]|].
  simpl. now intros ->.
Qed.


End FetchersCompared.


(* ===================================================================== *)
(** * The two fetchers on one response *)
(* ===================================================================== *)

Section TwoClients.
Context {urls : UrlLib} {html : HtmlLib}.

(** The site as the client of [speechGather.py] sees it, which sends a
    [User-Agent] header, and as the client of [test.py] sees it, which
    sends none. *)
Variable agent : Network.
Variable plain : Network.

(** X17: when the site gives the two fetchers the same response, one that
    [raise_for_status] accepts, and one of the four selectors of
    [speechGather.py] finds a container in its page, [test.py] returns
    the stripped text of that container and [speechGather.py] returns the
    same text with its white space collapsed. *)
Theorem fetchers_agree (url : str) (h h0 : history)
    (response : Response) (page : soup) (d : tag) :
  http_get (Network := agent) h (requested_url url) = inr response ->
  http_get (Network := plain) h0 (requested_url url) = inr response ->
  raise_for_status (Network := agent) response = None ->
  raise_for_status (Network := plain) response = None ->
  BeautifulSoup (content response) = inr page ->
  or_else (find page (div_class "speech"))
    (or_else (find page (div_class "speech_text"))
       (or_else (find page (div_id "speech"))
          (find page (div_class "debate-body")))) = Some d ->
  fst (TestPy.fetch_full_speech (net := plain) url h0)
  = strip (tag_get_text d NEWLINE) /\
  fst (fetch_full_speech (net := agent) url h)
  = collapse (fst (TestPy.fetch_full_speech (net := plain) url h0)).
Proof.
  intros Hagent Hplain Hok Hok0 Hparse Hfound.
  pose proof (first_match_of_four page Hfound) as Hfirst.
  unfold requested_url in Hagent, Hplain.
  assert (fst (TestPy.fetch_full_speech (net := plain) url h0)
          = strip (tag_get_text d NEWLINE)) as Htest.
  { run_fetch. now rewrite Hplain, Hok0, Hparse, Hfirst. }
  split; [exact Htest|]. rewrite Htest.
  run_fetch. now rewrite Hagent, Hok, Hparse, Hfound.
Qed.

End TwoClients.

Lemma fetchers_agree_witness :
  fst (TestPy.fetch_full_speech (net := LocatorExamples.plain_web)
         (urls := Examples.path_urls) (html := LocatorExamples.div_pages)
         (lit "/debates/?id=speech") [])
  = strip (tag_get_text (HtmlLib := LocatorExamples.div_pages)
             (lit "  Mr President,   I rise.  ") NEWLINE) /\
  fst (fetch_full_speech (net := LocatorExamples.agent_web)
         (urls := Examples.path_urls) (html := LocatorExamples.div_pages)
         (lit "/debates/?id=speech") [])
  = collapse
      (fst (TestPy.fetch_full_speech (net := LocatorExamples.plain_web)
              (urls := Examples.path_urls) (html := LocatorExamples.div_pages)
              (lit "/debates/?id=speech") [])).
Proof.
  apply (fetchers_agree (urls := Examples.path_urls)
           (html := LocatorExamples.div_pages)
           LocatorExamples.agent_web LocatorExamples.plain_web
           (lit "/debates/?id=speech") [] []
           (response := LocatorExamples.speech_response)
           (page := List.map Byte.to_N
                      (content LocatorExamples.speech_response)));
    vm_compute; reflexivity.
Defined.

(** The two texts of that page. *)
Example speech_page_texts :
  fst (TestPy.fetch_full_speech (net := LocatorExamples.plain_web)
         (urls := Examples.path_urls) (html := LocatorExamples.div_pages)
         (lit "/debates/?id=speech") [])
  = lit "Mr President,   I rise." /\
  fst (fetch_full_speech (net := LocatorExamples.agent_web)
         (urls := Examples.path_urls) (html := LocatorExamples.div_pages)
         (lit "/debates/?id=speech") [])
  = lit "Mr President, I rise.".
Proof. split; vm_compute; reflexivity. Qed.

(* ===================================================================== *)
(** * Responses that are not errors, and locators that are refused *)
(* ===================================================================== *)

(** C5, as stated, fails: a response with status 300, outside the 200s,
    is not an error for [raise_for_status]; its page is parsed and its
    text returned in place of the sentinel. *)
Lemma multiple_choices_is_returned :
  status_code LocatorExamples.choices_response = 300%Z /\
  http_get (Network := LocatorExamples.choices_web) []
    (requested_url (urls := Examples.path_urls) (lit "/debates/?id=choices"))
  = inr LocatorExamples.choices_response /\
  fst (fetch_full_speech (net := LocatorExamples.choices_web)
         (urls := Examples.path_urls) (html := Examples.text_pages)
         (lit "/debates/?id=choices") [])
  = lit "Pick one of the mirrors." /\
  fst (fetch_full_speech (net := LocatorExamples.choices_web)
         (urls := Examples.path_urls) (html := Examples.text_pages)
         (lit "/debates/?id=choices") [])
  <> SENTINEL.
Proof. repeat split; vm_compute; try reflexivity. discriminate. Qed.

Section RaisingFacts.
Context {net : Network} {urls : UrlLib} {html : HtmlLib} {errors : UrlErrors}.

(** With a locator that resolves, the fetch is the fetch of [UrlLib]. *)
Lemma raising_fetch_resolved (u : str) (h : history) :
  Raising.absolute_url (before_first HASH (unescape u))
  = inr (absolute_url (before_first HASH (unescape u))) ->
  Raising.fetch_full_speech u h = fetch_full_speech u h.
Proof.
  intros Hresolved.
  unfold Raising.fetch_full_speech, Raising.fetch_full_speech_try,
    fetch_full_speech, fetch_full_speech_try, try_except, bind, lift.
  now rewrite Hresolved.
Qed.

(** With a locator that does not resolve, the fetch gives the sentinel
    and makes no request. *)
Lemma raising_fetch_refused (u : str) (h : history) (e : exn) :
  Raising.absolute_url (before_first HASH (unescape u)) = inl e ->
  Raising.fetch_full_speech u h = (SENTINEL, h).
Proof.
  intros Hrefused.
  unfold Raising.fetch_full_speech, Raising.fetch_full_speech_try,
    try_except, bind, lift.
  now rewrite Hrefused.
Qed.

(** An iteration whose locator resolves builds the row of [export_row]. *)
Lemma raising_row_resolved (entry : Entry) (h : history) :
  locator_resolves entry ->
  Raising.export_row entry h
  = (inr (fst (export_row entry h)), snd (export_row entry h)).
Proof.
  unfold locator_resolves, Raising.export_row, export_row, bind, lift, ret.
  intros Hresolves.
  destruct (detail_url entry) as [u|].
  - destruct (Hresolves u eq_refl) as [Hcolumn Hfetch]. rewrite Hcolumn.
    destruct (is_truncated (entry_body entry)); [|reflexivity].
    rewrite (raising_fetch_resolved u h Hfetch).
    now destruct (fetch_full_speech u h).
  - now destruct (is_truncated (entry_body entry)).
Qed.

(** An iteration whose locator is refused raises before anything else. *)
Lemma raising_row_refused (entry : Entry) (h : history) :
  locator_refused entry ->
  Raising.export_row entry h = (inl ValueError, h).
Proof.
  intros (u & Hurl & Hrefused).
  unfold Raising.export_row, bind, lift. now rewrite Hurl, Hrefused.
Qed.

(** When every locator resolves, the loop is the loop of [UrlLib]: one
    row per entry. *)
Lemma raising_loop_resolved (entries : list Entry) (speeches : list Row)
    (h : history) :
  Forall locator_resolves entries ->
  Raising.speeches_loop entries speeches h
  = (inr (speeches ++ fst (speeches_loop entries h)),
     snd (speeches_loop entries h)).
Proof.
  intros Hall. revert speeches h.
  induction Hall as [|entry rest Hentry _ IH]; intros speeches h.
  - simpl. unfold ret. now rewrite app_nil_r.
  - cbn [Raising.speeches_loop]. unfold bind at 1.
    rewrite (raising_row_resolved h Hentry), IH, speeches_loop_cons.
    simpl. now rewrite <- app_assoc.
Qed.

(** One locator that is refused makes the loop raise, whatever the other
    entries are. *)
Lemma raising_loop_refused (entries : list Entry) (speeches : list Row)
    (h : history) :
  Exists locator_refused entries ->
  exists e h', Raising.speeches_loop entries speeches h = (inl e, h').
Proof.
  intros Hsome. revert speeches h.
  induction Hsome as [entry rest Hentry | entry rest _ IH];
    intros speeches h; cbn [Raising.speeches_loop]; unfold bind at 1.
  - rewrite (raising_row_refused h Hentry). now exists ValueError, h.
  - destruct (Raising.export_row entry h) as [[e|row] h1].
    + now exists e, h1.
    + apply IH.
Qed.

(** The export writes every row when the locators resolve, and no row at
    all as soon as one is refused. *)
Lemma raising_export_all_or_nothing {dates : DateLib} (key : str)
    (hansard_data : option (list Entry)) (h : history) :
  truthy key = true ->
  (Forall locator_resolves
     (get_hansard_by_date_range (lit "2023-12-05") (lit "2024-12-05")
        hansard_data) ->
   items_written
     (fst (Raising.export_speeches_to_csv (Some key) hansard_data h))
   = rows_written (export_speeches_to_csv (Some key) hansard_data h)) /\
  (Exists locator_refused
     (get_hansard_by_date_range (lit "2023-12-05") (lit "2024-12-05")
        hansard_data) ->
   fst (Raising.export_speeches_to_csv (Some key) hansard_data h) = Raised).
Proof.
  intros Hkey.
  unfold Raising.export_speeches_to_csv, export_speeches_to_csv, rows_written.
  rewrite Hkey.
  destruct (get_hansard_by_date_range _ _ hansard_data) as [|entry rest].
  - split; [reflexivity|]. intros Hsome. inversion Hsome.
  - split.
    + intros Hall. rewrite (raising_loop_resolved [] h Hall).
      now destruct (speeches_loop (entry :: rest) h).
    + intros Hsome.
      destruct (raising_loop_refused [] h Hsome) as (e & h' & ->).
      reflexivity.
Qed.

End RaisingFacts.

(** C2 does not hold of the code: of the three entries of the listing,
    all within the dates of the export, the second has a locator that
    [urljoin] refuses.  The [ValueError] leaves the loop, which is outside
    any [try], after the first entry was fetched, and the export writes no
    row: three records in, none out. *)
Theorem bad_locator_aborts_export :
  List.length LocatorExamples.listing = 3%nat /\
  get_hansard_by_date_range (dates := Examples.ascii_dates)
    (lit "2023-12-05") (lit "2024-12-05") (Some LocatorExamples.listing)
  = LocatorExamples.listing /\
  Raising.export_speeches_to_csv (net := Examples.web)
    (urls := Examples.path_urls) (html := Examples.text_pages)
    (errors := LocatorExamples.bracket_errors)
    (dates := Examples.ascii_dates)
    (Some (lit "key")) (Some LocatorExamples.listing) []
  = (Raised, [Examples.budget_url]) /\
  items_written
    (fst (Raising.export_speeches_to_csv (net := Examples.web)
            (urls := Examples.path_urls) (html := Examples.text_pages)
            (errors := LocatorExamples.bracket_errors)
            (dates := Examples.ascii_dates)
            (Some (lit "key")) (Some LocatorExamples.listing) []))
  = [].
Proof. repeat split; vm_compute; reflexivity. Qed.

(** Without the second entry the same export writes its two rows. *)
Example good_locators_are_exported :
  List.map Date
    (items_written
       (fst (Raising.export_speeches_to_csv (net := Examples.web)
               (urls := Examples.path_urls) (html := Examples.text_pages)
               (errors := LocatorExamples.bracket_errors)
               (dates := Examples.ascii_dates)
               (Some (lit "key"))
               (Some [Examples.truncated_entry; Examples.complete_entry])
               [])))
  = [Some (lit "2024-05-14"); Some (lit "2024-05-15")].
Proof. vm_compute. reflexivity. Qed.
